(** * Vegas roulette service: the spin decision engine

    A shallow embedding of [services/roulette/python/roulette_service_grpc.py]
    ([RED_NUMBERS], [get_cheat_boost_chance], [get_color] and the body of
    [RouletteServiceServicer.Spin]) together with the properties of the
    wheel, the bet evaluation, the cheat adjustment and the house advantage.

    Modelling conventions.
    - Python [int] is [Z]; Python [float] (bet amounts, payouts, the values
      of [random.random()]) is an exact rational [Q]: rounding, infinities
      and NaN are not represented, and payouts are compared with [==].
    - Python [str] is [string]; the colours stay the strings the code uses.
    - A bet leg is either a [dict] or an object with attributes; both are
      finite maps from names to Python values, and the code's [isinstance],
      [.get], [getattr] and [hasattr] accesses are written out.
    - [request.bet_value] is iterated with [.items()], so it is a list of
      (key, leg) pairs in iteration order.
    - The pseudo-random generator is the record [Rng] of the draws one call
      of [Spin] can consume, in the order in which it consumes them.
    - Exceptions are the [Raise] results of the type [result].
    - Tracing, logging, the Redis state store and the scoring sink do not
      feed back into the response and are left out. *)

From Stdlib Require Import ZArith QArith Ascii String List Bool Lia Lqa.
From stdpp Require Import gmap strings.

Open Scope Z_scope.

(** ** Python values and the builtins the handler uses *)

Module Py.

Inductive pyval : Type :=
| PyNone
| PyInt (z : Z)
| PyFloat (q : Q)
| PyStr (s : string).

Inductive exn : Type := ValueError | TypeError | AttributeError.

Inductive result (A : Type) : Type :=
| Ok (a : A)
| Raise (e : exn).

Arguments Ok {A} a.
Arguments Raise {A} e.

(** [bool(v)]: [None], zero and the empty string are false. *)
Definition truthy (v : pyval) : bool :=
  match v with
  | PyNone => false
  | PyInt z => negb (z =? 0)
  | PyFloat q => negb (Qeq_bool q 0)
  | PyStr s => negb (String.eqb s "")
  end.

(** [a or b] *)
Definition py_or (a b : pyval) : pyval := if truthy a then a else b.

(** [v == s] for a string literal [s] *)
Definition is_str (v : pyval) (s : string) : bool :=
  match v with
  | PyStr s' => String.eqb s' s
  | _ => false
  end.

(** [v is None] *)
Definition is_none (v : pyval) : bool :=
  match v with
  | PyNone => true
  | _ => false
  end.

(** [d.get(k)] on a dict *)
Definition dict_get (d : gmap string pyval) (k : string) : pyval :=
  default PyNone (d !! k).

(** [getattr(o, k, dflt)] and [hasattr(o, k)] on an object *)
Definition getattr (o : gmap string pyval) (k : string) (dflt : pyval) : pyval :=
  default dflt (o !! k).

Definition hasattr (o : gmap string pyval) (k : string) : bool :=
  match o !! k with
  | Some _ => true
  | None => false
  end.

(** [s.replace('bet_', '')]: every non-overlapping occurrence, left to
    right. *)
Fixpoint replace_bet_ (s : string) : string :=
  match s with
  | String "b"%char (String "e"%char (String "t"%char (String "_"%char rest))) =>
      replace_bet_ rest
  | String c rest => String c (replace_bet_ rest)
  | EmptyString => EmptyString
  end.

(** [range(lo, hi)] and [range(lo, hi, step)] for a positive step *)
Definition range (lo hi : Z) : list Z :=
  map (fun i => lo + Z.of_nat i) (seq 0 (Z.to_nat (hi - lo))).

Definition range_step (lo hi step : Z) : list Z :=
  map (fun i => lo + step * Z.of_nat i)
      (seq 0 (Z.to_nat ((hi - lo + step - 1) / step))).

(** [x in l] *)
Definition py_in (x : Z) (l : list Z) : bool := existsb (Z.eqb x) l.

(** [random.choice(l)]: the element at a position drawn uniformly from
    [0, len(l)); [k] is the generator's raw draw. *)
Definition choice (k : nat) (l : list Z) : Z :=
  nth (k mod length l)%nat l 0.

(** [int(x)] on a float: truncation towards zero *)
Definition Qtruncate (q : Q) : Z := Z.quot (Qnum q) (Z.pos (Qden q)).

(** [x < y] on floats *)
Definition Qltb (x y : Q) : bool := negb (Qle_bool y x).

(** One instance of [int(s)] and [float(s)] on strings, used to run the
    examples: plain decimal literals with an optional sign. The properties
    below hold for every choice of the two functions. *)
Definition digit_of (c : ascii) : option Z :=
  let n := Z.of_nat (nat_of_ascii c) in
  if (48 <=? n) && (n <=? 57) then Some (n - 48) else None.

Fixpoint digits_value (s : string) (acc : Z) : option Z :=
  match s with
  | EmptyString => Some acc
  | String c rest =>
      match digit_of c with
      | Some d => digits_value rest (10 * acc + d)
      | None => None
      end
  end.

Definition decimal_int (s : string) : option Z :=
  match s with
  | EmptyString => None
  | String "-"%char (String c rest) => option_map Z.opp (digits_value (String c rest) 0)
  | String "+"%char (String c rest) => digits_value (String c rest) 0
  | _ => digits_value s 0
  end.

Definition decimal_float (s : string) : option Q :=
  option_map inject_Z (decimal_int s).

End Py.

Import Py.

(** ** The wheel *)

Definition RED_NUMBERS : list Z :=
  [1; 3; 5; 7; 9; 12; 14; 16; 18; 19; 21; 23; 25; 27; 30; 32; 34; 36].

Definition get_cheat_boost_chance (cheat_type : string) : Q :=
  if String.eqb cheat_type "ballControl" then 3 # 10
  else if String.eqb cheat_type "wheelBias" then 1 # 4
  else if String.eqb cheat_type "magneticField" then 4 # 10
  else if String.eqb cheat_type "sectorPrediction" then 35 # 100
  else 0.

Definition get_color (number : Z) : string :=
  if number =? 0 then "green"
  else if py_in number RED_NUMBERS then "red" else "black".

(** [[n for n in range(1, 37) if n not in RED_NUMBERS]] *)
Definition black_numbers : list Z :=
  List.filter (fun n => negb (py_in n RED_NUMBERS)) (range 1 37).

Definition even_numbers : list Z := range_step 2 37 2.
Definition odd_numbers : list Z := range_step 1 37 2.
Definition low_numbers : list Z := range 1 19.
Definition high_numbers : list Z := range 19 37.

(** ** Requests, responses and the random draws *)

(** One entry of [request.bet_value]: the handler tests
    [isinstance(bet, dict)] and reads a dict with [.get] and anything else
    with [getattr]/[hasattr]. *)
Inductive Bet : Type :=
| BetDict (d : gmap string pyval)
| BetObj (attrs : gmap string pyval).

(** The fields of the request that reach the decision logic; protobuf
    gives an absent string as the empty string, an absent number as 0 and
    an absent map as the empty map. *)
Record SpinRequest : Type := {
  req_bet_type : string;
  req_bet_amount : Q;
  req_bet_value : list (string * Bet);
  req_cheat_active : bool;
  req_cheat_type : string
}.

(** [roulette_pb2.SpinResponse] without its timestamp *)
Record SpinResponse : Type := {
  resp_winning_number : Z;
  resp_color : string;
  resp_win : bool;
  resp_payout : Q;
  resp_cheat_active : bool;
  resp_cheat_type : string;
  resp_cheat_boosted : bool
}.

(** The draws of one spin, in program order: [random.randint(0, 36)], the
    [random.random()] of the cheat test, the position picked by the one
    [random.choice] a spin can reach, and the [random.random()] of the house
    advantage. *)
Record Rng : Type := {
  rng_randint : Z;
  rng_cheat : Q;
  rng_choice : nat;
  rng_house : Q
}.

(** What the generator can produce. *)
Definition rng_ok (rng : Rng) : Prop :=
  0 <= rng_randint rng <= 36 /\
  (0 <= rng_cheat rng)%Q /\ (rng_cheat rng < 1)%Q /\
  (0 <= rng_house rng)%Q /\ (rng_house rng < 1)%Q.

(** [if l:] on a list or map *)
Definition nonempty {A : Type} (l : list A) : bool :=
  match l with
  | [] => false
  | _ :: _ => true
  end.

(** The record handed to [record_game_result_async], without the user name
    and the timestamp; [gameData] and [metadata] are flattened. *)
Record GameResult : Type := {
  gr_betAmount : Q;
  gr_payout : Q;
  gr_win : bool;
  gr_result : string;
  gr_winning_number : Z;
  gr_color : string;
  gr_bet_type : string;
  gr_cheat_active : bool;
  gr_cheat_type : string;
  gr_cheat_boosted : bool
}.

(** ** The Redis helper ([redis_helper.py])

    The server is seen through the client as a finite map from keys to a
    time to live and a value; expiry is not represented. [redis_client] is
    [None] when no connection was made. Whether a call reaches the server
    is an input: a call that does not raises inside the helper's [try]. *)

Module RedisHelper.

Definition GAME_STATE_KEY_PREFIX : string := "roulette:game:".
Definition GAME_STATE_TTL : Z := 3600.

(** [f"{GAME_STATE_KEY_PREFIX}{username}"] *)
Definition game_key (username : string) : string :=
  GAME_STATE_KEY_PREFIX ++ username.

Section Helper.

(** [json.dumps] and [json.loads] on game states are parameters; [None]
    stands for the exception they raise. *)
Variable GameState : Type.
Variable json_dumps : GameState -> option string.
Variable json_loads : string -> option GameState.

Definition get_game_state (redis_client : option (gmap string (Z * string)))
    (reachable : bool) (username : string) : option GameState :=
  match redis_client with
  | None => None
  | Some db =>
      if reachable then
        match db !! game_key username with
        | Some (_, state_json) =>
            if String.eqb state_json "" then None else json_loads state_json
        | None => None
        end
      else None
  end.

(** The result and the client with the server behind it after the call. *)
Definition save_game_state (redis_client : option (gmap string (Z * string)))
    (reachable : bool) (username : string) (game_state : GameState)
    : bool * option (gmap string (Z * string)) :=
  match redis_client with
  | None => (false, None)
  | Some db =>
      match json_dumps game_state with
      | None => (false, Some db)
      | Some state_json =>
          if reachable
          then (true, Some (<[game_key username := (GAME_STATE_TTL, state_json)]> db))
          else (false, Some db)
      end
  end.

Definition delete_game_state (redis_client : option (gmap string (Z * string)))
    (reachable : bool) (username : string)
    : bool * option (gmap string (Z * string)) :=
  match redis_client with
  | None => (false, None)
  | Some db =>
      if reachable then (true, Some (delete (game_key username) db))
      else (false, Some db)
  end.

End Helper.

End RedisHelper.

(** ** The feature flags ([featureflags.py] and the fallback of the
    service)

    The environment is a finite map; the HTTP exchange with flagd is an
    input: either it fails with one of the exceptions the helper catches, or
    its body parses to a JSON object; a body that is no JSON object or no
    UTF-8 text is not represented. Strings are ASCII. *)

Module FeatureFlags.

(** The JSON values the helper distinguishes: booleans, strings, and
    everything else (numbers, null, arrays, objects). *)
Inductive jval : Type :=
| JBool (b : bool)
| JStr (s : string)
| JOther.

Inductive flagd_reply : Type :=
| Unreachable
| Reply (data : gmap string jval).

Definition char_upper (c : ascii) : ascii :=
  let n := nat_of_ascii c in
  if (97 <=? n)%nat && (n <=? 122)%nat then ascii_of_nat (n - 32) else c.

Definition char_lower (c : ascii) : ascii :=
  let n := nat_of_ascii c in
  if (65 <=? n)%nat && (n <=? 90)%nat then ascii_of_nat (n + 32) else c.

Fixpoint map_chars (f : ascii -> ascii) (s : string) : string :=
  match s with
  | EmptyString => EmptyString
  | String c rest => String (f c) (map_chars f rest)
  end.

(** [s.upper()], [s.lower()] and [s.replace('.', '_')] *)
Definition upper (s : string) : string := map_chars char_upper s.
Definition lower (s : string) : string := map_chars char_lower s.
Definition replace_dots (s : string) : string :=
  map_chars (fun c => if Ascii.eqb c "."%char then "_"%char else c) s.

(** [f"FLAG_{flag_key.replace('.', '_').upper()}"] *)
Definition env_key (flag_key : string) : string :=
  "FLAG_" ++ upper (replace_dots flag_key).

(** [v in ("true", "1", "yes")] *)
Definition in_true_words (v : string) : bool :=
  String.eqb v "true" || String.eqb v "1" || String.eqb v "yes".

(** [str(b)] on a boolean *)
Definition str_of_bool (b : bool) : string := if b then "True" else "False".

Definition is_jstr (v : jval) (s : string) : bool :=
  match v with
  | JStr s' => String.eqb s' s
  | _ => false
  end.

Definition is_jbool (v : jval) (b : bool) : bool :=
  match v with
  | JBool b' => Bool.eqb b' b
  | _ => false
  end.

Section Helper.

(** [json.loads] on a string; [None] stands for [JSONDecodeError]. *)
Variable json_loads : string -> option jval.

(** [featureflags.get_feature_flag] *)
Definition get_feature_flag (env : gmap string string) (flagd : flagd_reply)
    (flag_key : string) (default_value : bool) : result jval :=
  match env !! env_key flag_key with
  | Some env_value => Ok (JBool (in_true_words (lower env_value)))
  | None =>
      match flagd with
      | Unreachable => Ok (JBool default_value)
      | Reply data =>
          match data !! "state"%string with
          | Some state =>
              if is_jstr state "ENABLED" then
                let variant :=
                  default (JStr (str_of_bool default_value))
                          (data !! "defaultVariant"%string) in
                if is_jstr variant "true" || is_jbool variant true
                then Ok (JBool true)
                else if is_jstr variant "false" || is_jbool variant false
                then Ok (JBool false)
                else
                  match variant with
                  | JStr s =>
                      match json_loads (lower s) with
                      | Some v => Ok v
                      | None => Ok (JBool default_value)
                      end
                  | _ => Raise AttributeError
                  end
              else Ok (JBool default_value)
          | None => Ok (JBool default_value)
          end
      end
  end.

End Helper.

(** The [get_feature_flag] the service defines when the helper cannot be
    imported. *)
Definition get_feature_flag_fallback (env : gmap string string)
    (flag_key : string) (default_value : bool) : bool :=
  let env_value := default (str_of_bool default_value) (env !! env_key flag_key) in
  in_true_words (lower env_value).

End FeatureFlags.

(** ** Example requests *)

(** The legs of the scenario "A: red, amount 10; B: straight on 5, amount
    5", as dicts. *)
Definition scenario_legs : list (string * Bet) :=
  [("A"%string, BetDict {[ "type"%string := PyStr "red"; "amount"%string := PyInt 10 ]});
   ("B"%string, BetDict {[ "type"%string := PyStr "straight";
                           "value"%string := PyInt 5;
                           "amount"%string := PyInt 5 ]})].

(** A red leg and an odd leg: the numbers 1, 3, 5, 7, 9, 19, 21, 23, 25 and
    27 satisfy both. *)
Definition red_and_odd_legs : list (string * Bet) :=
  [("a"%string, BetDict {[ "type"%string := PyStr "red"; "amount"%string := PyInt 10 ]});
   ("b"%string, BetDict {[ "type"%string := PyStr "odd"; "amount"%string := PyInt 10 ]})].

(** A straight leg on 17, as an object with the attribute [value]. *)
Definition straight_17_leg : Bet := BetObj {[ "value"%string := PyInt 17 ]}.

(** Draws: the ball on 17; the ball on 7 and a cheat draw of 0.1; the ball
    on the red 1 and a cheat draw of 0.1. *)
Definition draws_17 : Rng :=
  {| rng_randint := 17; rng_cheat := 1 # 2; rng_choice := 0%nat; rng_house := 1 # 2 |}.

(** The ball on 5, no cheat. *)
Definition draws_5 : Rng :=
  {| rng_randint := 5; rng_cheat := 1 # 2; rng_choice := 0%nat; rng_house := 1 # 2 |}.

Definition draws_7_cheating : Rng :=
  {| rng_randint := 7; rng_cheat := 1 # 10; rng_choice := 3%nat; rng_house := 1 # 2 |}.

Definition draws_1_cheating : Rng :=
  {| rng_randint := 1; rng_cheat := 1 # 10; rng_choice := 3%nat; rng_house := 1 # 2 |}.

(** A single even bet of 10 with the cheat [ballControl] switched on. *)
Definition even_bet_with_cheat : SpinRequest :=
  {| req_bet_type := "even"; req_bet_amount := 10; req_bet_value := [];
     req_cheat_active := true; req_cheat_type := "ballControl" |}.

(** A single black bet of 10 with the cheat [wheelBias] switched on. *)
Definition black_bet_with_cheat : SpinRequest :=
  {| req_bet_type := "black"; req_bet_amount := 10; req_bet_value := [];
     req_cheat_active := true; req_cheat_type := "wheelBias" |}.

(** A request that leaves the bet type and the amount out. *)
Definition bare_request : SpinRequest :=
  {| req_bet_type := ""; req_bet_amount := 0; req_bet_value := [];
     req_cheat_active := false; req_cheat_type := "" |}.

(** The scenario legs as a multiple bet with the cheat [ballControl]. *)
Definition multiple_bet_with_cheat : SpinRequest :=
  {| req_bet_type := "multiple"; req_bet_amount := 0;
     req_bet_value := scenario_legs;
     req_cheat_active := true; req_cheat_type := "ballControl" |}.

(** A single straight bet of 5 on 17 with the cheat [ballControl]: the
    target as an object with the attribute [value], and as a dict under a
    key that is no number. *)
Definition straight_bet_with_cheat : SpinRequest :=
  {| req_bet_type := "straight"; req_bet_amount := 5;
     req_bet_value := [("bet_17"%string, straight_17_leg)];
     req_cheat_active := true; req_cheat_type := "ballControl" |}.

Definition straight_dict_bet_with_cheat : SpinRequest :=
  {| req_bet_type := "straight"; req_bet_amount := 5;
     req_bet_value :=
       [("lucky"%string, BetDict {[ "value"%string := PyInt 17 ]})];
     req_cheat_active := true; req_cheat_type := "ballControl" |}.

(** A single straight bet whose entry has the attribute [value] set to
    [None]. *)
Definition straight_bet_without_value : SpinRequest :=
  {| req_bet_type := "straight"; req_bet_amount := 5;
     req_bet_value := [("bet_17"%string, BetObj {[ "value"%string := PyNone ]})];
     req_cheat_active := false; req_cheat_type := "" |}.

(** A bet type the evaluation has no branch for. *)
Definition split_bet : SpinRequest :=
  {| req_bet_type := "split"; req_bet_amount := 10; req_bet_value := [];
     req_cheat_active := false; req_cheat_type := "" |}.

(** A store that holds a state for bob, and flagd answers. *)
Definition store_with_bob : gmap string (Z * string) :=
  {[ "roulette:game:bob"%string := (3600, "[1, 2]"%string) ]}.

Definition flagd_numeric_variant : FeatureFlags.flagd_reply :=
  FeatureFlags.Reply
    {[ "state"%string := FeatureFlags.JStr "ENABLED";
       "defaultVariant"%string := FeatureFlags.JOther ]}.

(** A single straight bet of 5 on 0 with the cheat [ballControl], the leg
    a dict whose entry ['value'] is the integer 0. *)
Definition straight_0_fields : gmap string pyval :=
  {[ "type"%string := PyStr "straight"; "value"%string := PyInt 0;
     "amount"%string := PyInt 5 ]}.

Definition straight_dict_0_bet_with_cheat : SpinRequest :=
  {| req_bet_type := "straight"; req_bet_amount := 5;
     req_bet_value := [("bet_0"%string, BetDict straight_0_fields)];
     req_cheat_active := true; req_cheat_type := "ballControl" |}.

(** The scenario legs followed by a red leg whose amount is the text
    [ten]. *)
Definition legs_with_text_amount : list (string * Bet) :=
  scenario_legs ++
  [("C"%string, BetDict {[ "type"%string := PyStr "red";
                           "amount"%string := PyStr "ten" ]})].

Definition multiple_bet_with_text_amount : SpinRequest :=
  {| req_bet_type := "multiple"; req_bet_amount := 0;
     req_bet_value := legs_with_text_amount;
     req_cheat_active := false; req_cheat_type := "" |}.

Section Roulette.

(** The builtins [int(s)] and [float(s)] on a string are parameters of the
    development: [None] stands for [ValueError]. *)
Variable int_of_str : string -> option Z.
Variable float_of_str : string -> option Q.

(** [int(v)]. A float is a finite rational here, so the [OverflowError]
    that [int] raises on an infinity is outside the values represented. *)
Definition py_int (v : pyval) : result Z :=
  match v with
  | PyNone => Raise TypeError
  | PyInt z => Ok z
  | PyFloat q => Ok (Qtruncate q)
  | PyStr s =>
      match int_of_str s with
      | Some z => Ok z
      | None => Raise ValueError
      end
  end.

(** [float(v)]. An integer is taken to lie in the range of a float, so
    the [OverflowError] that [float] raises on a larger one is outside the
    values represented. *)
Definition py_float (v : pyval) : result Q :=
  match v with
  | PyNone => Raise TypeError
  | PyInt z => Ok (inject_Z z)
  | PyFloat q => Ok q
  | PyStr s =>
      match float_of_str s with
      | Some q => Ok q
      | None => Raise ValueError
      end
  end.

(** *** Reading one leg *)

(** [bet.get('type') or bet.get('Type') or ''], respectively
    [getattr(bet, 'type', getattr(bet, 'Type', ''))] *)
Definition leg_type (bet : Bet) : pyval :=
  match bet with
  | BetDict d => py_or (py_or (dict_get d "type") (dict_get d "Type")) (PyStr "")
  | BetObj o => getattr o "type" (getattr o "Type" (PyStr ""))
  end.

(** [bet.get('value') or bet.get('Value')], respectively
    [getattr(bet, 'value', getattr(bet, 'Value', None))] (cheat block) *)
Definition leg_value (bet : Bet) : pyval :=
  match bet with
  | BetDict d => py_or (dict_get d "value") (dict_get d "Value")
  | BetObj o => getattr o "value" (getattr o "Value" PyNone)
  end.

(** The [bet_number_value] of the evaluation block: the same expression on
    a dict, and the [hasattr]/[elif hasattr] chain on an object. *)
Definition leg_number_value (bet : Bet) : pyval :=
  match bet with
  | BetDict d => py_or (dict_get d "value") (dict_get d "Value")
  | BetObj o =>
      if hasattr o "value" then getattr o "value" PyNone
      else if hasattr o "Value" then getattr o "Value" PyNone
      else PyNone
  end.

(** [float(bet.get("amount") or bet.get("Amount") or bet.get("betAmount") or 0)],
    respectively the nested [getattr] with default 0 *)
Definition leg_amount (bet : Bet) : result Q :=
  match bet with
  | BetDict d =>
      py_float (py_or (py_or (py_or (dict_get d "amount") (dict_get d "Amount"))
                             (dict_get d "betAmount"))
                      (PyInt 0))
  | BetObj o =>
      py_float (getattr o "amount" (getattr o "Amount" (getattr o "betAmount" (PyInt 0))))
  end.

(** [0 <= n <= 36] *)
Definition on_wheel (n : Z) : bool := (0 <=? n) && (n <=? 36).

(** *** The cheat block *)

(** What one leg adds to [potential_winning_numbers]. *)
Definition leg_candidates (bet : Bet) : list Z :=
  let bet_type_inner := leg_type bet in
  let bet_value_inner := leg_value bet in
  if is_str bet_type_inner "straight" && negb (is_none bet_value_inner) then
    match py_int bet_value_inner with
    | Ok straight_number =>
        if on_wheel straight_number then [straight_number] else []
    | Raise _ => []
    end
  else if is_str bet_type_inner "red" then RED_NUMBERS
  else if is_str bet_type_inner "black" then black_numbers
  else if is_str bet_type_inner "even" then even_numbers
  else if is_str bet_type_inner "odd" then odd_numbers
  else if is_str bet_type_inner "low" then low_numbers
  else if is_str bet_type_inner "high" then high_numbers
  else [].

(** The loop that fills [potential_winning_numbers] with [append] and
    [extend]. *)
Definition potential_winning_numbers (bet_value : list (string * Bet)) : list Z :=
  fold_left (fun acc item => acc ++ leg_candidates (snd item)) bet_value [].

(** The loop of the single straight bet: the first leg whose value is
    present and converts to a number on the wheel decides, and [break]s. *)
Fixpoint cheat_straight (bet_value : list (string * Bet))
    (winning_number : Z) (color : string) : Z * string :=
  match bet_value with
  | [] => (winning_number, color)
  | (_, bet) :: rest =>
      let bet_number_value := leg_value bet in
      if is_none bet_number_value then cheat_straight rest winning_number color
      else
        match py_int bet_number_value with
        | Ok straight_number =>
            if on_wheel straight_number
            then (straight_number, get_color straight_number)
            else cheat_straight rest winning_number color
        | Raise _ => cheat_straight rest winning_number color
        end
  end.

(** What a successful cheat test does to the number and the colour. *)
Definition cheat_replace (k : nat) (bet_type : string)
    (bet_value : list (string * Bet)) (winning_number : Z) (color : string)
    : Z * string :=
  if String.eqb bet_type "multiple" && nonempty bet_value then
    let potential := potential_winning_numbers bet_value in
    if nonempty potential then
      let n := choice k potential in (n, get_color n)
    else (winning_number, color)
  else if String.eqb bet_type "red" && negb (String.eqb color "red") then
    (choice k RED_NUMBERS, "red"%string)
  else if String.eqb bet_type "black" && negb (String.eqb color "black") then
    (choice k black_numbers, "black"%string)
  else if String.eqb bet_type "straight" && nonempty bet_value then
    cheat_straight bet_value winning_number color
  else (winning_number, color).

(** The test [random.random() < boost_chance] under
    [if cheat_active and cheat_type]. *)
Definition cheat_fires (rng : Rng) (cheat_active : bool) (cheat_type : string) : bool :=
  cheat_active && negb (String.eqb cheat_type "") &&
  Qltb (rng_cheat rng) (get_cheat_boost_chance cheat_type).

(** The block "Apply cheat logic": the number, the colour and
    [cheat_boosted] after it. *)
Definition apply_cheat (rng : Rng) (bet_type : string)
    (bet_value : list (string * Bet)) (cheat_active : bool) (cheat_type : string)
    (winning_number : Z) (color : string) : Z * string * bool :=
  if cheat_active && negb (String.eqb cheat_type "") then
    let boost_chance := get_cheat_boost_chance cheat_type in
    if Qltb (rng_cheat rng) boost_chance then
      (cheat_replace (rng_choice rng) bet_type bet_value winning_number color, true)
    else (winning_number, color, false)
  else (winning_number, color, false).

(** *** The evaluation block *)

(** [bet_win] of one leg of a multiple bet. *)
Definition leg_win (bet : Bet) (winning_number : Z) (color : string) : bool :=
  let bet_type_inner := leg_type bet in
  if is_str bet_type_inner "red" then String.eqb color "red"
  else if is_str bet_type_inner "black" then String.eqb color "black"
  else if is_str bet_type_inner "even" then
    (0 <? winning_number) && (winning_number mod 2 =? 0)
  else if is_str bet_type_inner "odd" then
    (0 <? winning_number) && (winning_number mod 2 =? 1)
  else if is_str bet_type_inner "low" then
    (1 <=? winning_number) && (winning_number <=? 18)
  else if is_str bet_type_inner "high" then
    (19 <=? winning_number) && (winning_number <=? 36)
  else if is_str bet_type_inner "straight" then
    let bet_number_value := leg_number_value bet in
    if is_none bet_number_value then false
    else
      match py_int bet_number_value with
      | Ok bet_number => winning_number =? bet_number
      | Raise _ => false
      end
  else false.

(** One iteration of the loop over the legs; the state is
    [(win, total_payout)]. *)
Definition multiple_step (winning_number : Z) (color : string)
    (st : bool * Q) (item : string * Bet) : result (bool * Q) :=
  let '(win, total_payout) := st in
  let bet := snd item in
  match leg_amount bet with
  | Raise e => Raise e
  | Ok bet_amount_inner =>
      if leg_win bet winning_number color then
        if is_str (leg_type bet) "straight"
        then Ok (true, total_payout + bet_amount_inner * 36)%Q
        else Ok (true, total_payout + bet_amount_inner * 2)%Q
      else Ok (win, total_payout)
  end.

Fixpoint multiple_loop (winning_number : Z) (color : string)
    (bet_value : list (string * Bet)) (st : bool * Q) : result (bool * Q) :=
  match bet_value with
  | [] => Ok st
  | item :: rest =>
      match multiple_step winning_number color st item with
      | Ok st' => multiple_loop winning_number color rest st'
      | Raise e => Raise e
      end
  end.

(** [int(bet.value) if hasattr(bet, 'value') else
     int(bet_key.replace('bet_', ''))]; a dict has no attribute [value]. *)
Definition straight_bet_number (bet_key : string) (bet : Bet) : result Z :=
  match bet with
  | BetObj o =>
      if hasattr o "value" then py_int (getattr o "value" PyNone)
      else py_int (PyStr (replace_bet_ bet_key))
  | BetDict _ => py_int (PyStr (replace_bet_ bet_key))
  end.

(** The loop of the single straight bet: [ValueError] and [AttributeError]
    are caught and the loop continues, any other exception leaves the
    handler. *)
Fixpoint straight_loop (bet_amount : Q) (winning_number : Z)
    (bet_value : list (string * Bet)) : result (bool * Q) :=
  match bet_value with
  | [] => Ok (false, 0%Q)
  | (bet_key, bet) :: rest =>
      match straight_bet_number bet_key bet with
      | Ok bet_number =>
          if winning_number =? bet_number then Ok (true, bet_amount * 36)%Q
          else straight_loop bet_amount winning_number rest
      | Raise ValueError | Raise AttributeError =>
          straight_loop bet_amount winning_number rest
      | Raise TypeError => Raise TypeError
      end
  end.

(** [bet_amount * 2 if win else 0] *)
Definition even_money (bet_amount : Q) (win : bool) : bool * Q :=
  (win, if win then (bet_amount * 2)%Q else 0%Q).

(** The block "Calculate win and payout". *)
Definition evaluate (bet_type : string) (bet_amount : Q)
    (bet_value : list (string * Bet)) (winning_number : Z) (color : string)
    : result (bool * Q) :=
  if String.eqb bet_type "multiple" && nonempty bet_value then
    multiple_loop winning_number color bet_value (false, 0%Q)
  else if String.eqb bet_type "red" then
    Ok (even_money bet_amount (String.eqb color "red"))
  else if String.eqb bet_type "black" then
    Ok (even_money bet_amount (String.eqb color "black"))
  else if String.eqb bet_type "even" then
    Ok (even_money bet_amount ((0 <? winning_number) && (winning_number mod 2 =? 0)))
  else if String.eqb bet_type "odd" then
    Ok (even_money bet_amount ((0 <? winning_number) && (winning_number mod 2 =? 1)))
  else if String.eqb bet_type "low" then
    Ok (even_money bet_amount ((1 <=? winning_number) && (winning_number <=? 18)))
  else if String.eqb bet_type "high" then
    Ok (even_money bet_amount ((19 <=? winning_number) && (winning_number <=? 36)))
  else if String.eqb bet_type "straight" then
    straight_loop bet_amount winning_number bet_value
  else Ok (false, 0%Q).

(** *** The house advantage *)

Definition house_advantage (house_advantage_enabled : bool) (roll : Q)
    (win : bool) (payout : Q) : bool * Q :=
  if win && Qltb 0 payout && house_advantage_enabled then
    if Qltb roll (1 # 4) then (false, 0%Q) else (win, payout)
  else (win, payout).

(** *** The handler *)

(** [request.bet_type or "red"] and [request.bet_amount or 10] *)
Definition resolve_bet_type (request : SpinRequest) : string :=
  if String.eqb (req_bet_type request) "" then "red"%string
  else req_bet_type request.

Definition resolve_bet_amount (request : SpinRequest) : Q :=
  if Qeq_bool (req_bet_amount request) 0 then 10%Q
  else req_bet_amount request.

(** [house_advantage_enabled] is the value [get_feature_flag] returned for
    [casino.house-advantage]. The sum of the leg amounts that the handler
    recomputes for the scoring sink repeats conversions the evaluation has
    already done, so it raises nothing new and is not part of the result. *)
Definition Spin (house_advantage_enabled : bool) (rng : Rng)
    (request : SpinRequest) : result SpinResponse :=
  let bet_type := resolve_bet_type request in
  let bet_amount := resolve_bet_amount request in
  let bet_value := req_bet_value request in
  let cheat_active := req_cheat_active request in
  let cheat_type := req_cheat_type request in
  let winning_number := rng_randint rng in
  let color := get_color winning_number in
  let '(winning_number, color, cheat_boosted) :=
    apply_cheat rng bet_type bet_value cheat_active cheat_type winning_number color in
  match evaluate bet_type bet_amount bet_value winning_number color with
  | Raise e => Raise e
  | Ok (win, payout) =>
      let '(win, payout) :=
        house_advantage house_advantage_enabled (rng_house rng) win payout in
      Ok {| resp_winning_number := winning_number;
            resp_color := color;
            resp_win := win;
            resp_payout := payout;
            resp_cheat_active := cheat_active;
            resp_cheat_type := cheat_type;
            resp_cheat_boosted := cheat_boosted |}
  end.


(** ** Definitions used to state the properties *)

(** The amount of a leg whose conversion succeeds. *)
Definition amount_of (bet : Bet) : Q :=
  match leg_amount bet with
  | Ok a => a
  | Raise _ => 0%Q
  end.

Definition amounts_ok (bet_value : list (string * Bet)) : Prop :=
  Forall (fun item => exists a, leg_amount (snd item) = Ok a) bet_value.

(** 36 times the amount for a straight leg, twice the amount for any
    other kind. *)
Definition leg_payout (bet : Bet) : Q :=
  if is_str (leg_type bet) "straight" then (36 * amount_of bet)%Q
  else (2 * amount_of bet)%Q.

Definition winning_legs (winning_number : Z) (color : string)
    (bet_value : list (string * Bet)) : list (string * Bet) :=
  List.filter (fun item => leg_win (snd item) winning_number color) bet_value.

Definition sum_payouts (legs : list (string * Bet)) : Q :=
  fold_right (fun item acc => (leg_payout (snd item) + acc)%Q) 0%Q legs.

(** The leg's target as the cheat block reads it. *)
Definition cheat_target (bet : Bet) : option Z :=
  if is_none (leg_value bet) then None
  else
    match py_int (leg_value bet) with
    | Ok t => if on_wheel t then Some t else None
    | Raise _ => None
    end.

(** The number of positions [random.choice] can draw in [l] that yield
    [x]: the probability of [x] is [choice_weight l x / len(l)]. *)
Definition choice_weight (l : list Z) (x : Z) : nat :=
  length (List.filter (fun k => choice k l =? x) (seq 0 (length l))).

(** [random.choice(l)] is uniform on the members of [l]. *)
Definition uniform_choice (l : list Z) : Prop :=
  forall x y, In x l -> In y l -> choice_weight l x = choice_weight l y.

(** The numbers one leg contributes to the candidates of the cheat block,
    kind by kind. *)
Definition candidates_by_kind (bet : Bet) : Prop :=
  (is_str (leg_type bet) "straight" = true ->
     leg_candidates bet =
       match cheat_target bet with Some t => [t] | None => [] end) /\
  (is_str (leg_type bet) "red" = true -> leg_candidates bet = RED_NUMBERS) /\
  (is_str (leg_type bet) "black" = true -> leg_candidates bet = black_numbers) /\
  (is_str (leg_type bet) "even" = true -> leg_candidates bet = even_numbers) /\
  (is_str (leg_type bet) "odd" = true -> leg_candidates bet = odd_numbers) /\
  (is_str (leg_type bet) "low" = true -> leg_candidates bet = low_numbers) /\
  (is_str (leg_type bet) "high" = true -> leg_candidates bet = high_numbers) /\
  (Forall (fun kind => is_str (leg_type bet) kind = false)
          ["straight"; "red"; "black"; "even"; "odd"; "low"; "high"]%string ->
     leg_candidates bet = []).

(** The response assembled from the results of the three blocks. *)
Definition response_of (request : SpinRequest) (cheated : Z * string * bool)
    (outcome : bool * Q) : SpinResponse :=
  {| resp_winning_number := fst (fst cheated);
     resp_color := snd (fst cheated);
     resp_win := fst outcome;
     resp_payout := snd outcome;
     resp_cheat_active := req_cheat_active request;
     resp_cheat_type := req_cheat_type request;
     resp_cheat_boosted := snd cheated |}.

(** The state after the cheat block of a spin. *)
Definition cheated (rng : Rng) (request : SpinRequest) : Z * string * bool :=
  apply_cheat rng (resolve_bet_type request) (req_bet_value request)
    (req_cheat_active request) (req_cheat_type request)
    (rng_randint rng) (get_color (rng_randint rng)).

(** The result of the evaluation block of a spin. *)
Definition evaluated (rng : Rng) (request : SpinRequest) : result (bool * Q) :=
  evaluate (resolve_bet_type request) (resolve_bet_amount request)
    (req_bet_value request)
    (fst (fst (cheated rng request))) (snd (fst (cheated rng request))).

(** The keys of the table in [get_cheat_boost_chance]. *)
Definition known_cheat_types : list string :=
  ["ballControl"; "wheelBias"; "magneticField"; "sectorPrediction"]%string.


Definition any_leg_wins (winning_number : Z) (color : string)
    (bet_value : list (string * Bet)) : bool :=
  existsb (fun item => leg_win (snd item) winning_number color) bet_value.

(** A request with one field replaced. *)
Definition with_bet_type (bet_type : string) (request : SpinRequest) : SpinRequest :=
  {| req_bet_type := bet_type;
     req_bet_amount := req_bet_amount request;
     req_bet_value := req_bet_value request;
     req_cheat_active := req_cheat_active request;
     req_cheat_type := req_cheat_type request |}.

Definition with_bet_amount (bet_amount : Q) (request : SpinRequest) : SpinRequest :=
  {| req_bet_type := req_bet_type request;
     req_bet_amount := bet_amount;
     req_bet_value := req_bet_value request;
     req_cheat_active := req_cheat_active request;
     req_cheat_type := req_cheat_type request |}.

(** A single straight bet without cheat: the target travels in the one
    entry of [bet_value]. *)
Definition straight_request (bet_amount : Q) (bet_key : string) (bet : Bet)
    (cheat_type : string) : SpinRequest :=
  {| req_bet_type := "straight";
     req_bet_amount := bet_amount;
     req_bet_value := [(bet_key, bet)];
     req_cheat_active := false;
     req_cheat_type := cheat_type |}.

(** The condition under which an outside bet of the given kind wins. *)
Definition outside_wins (kind : string) (n : Z) : Prop :=
  (kind = "even"%string /\ 0 < n /\ n mod 2 = 0) \/
  (kind = "odd"%string /\ 0 < n /\ n mod 2 = 1) \/
  (kind = "low"%string /\ 1 <= n <= 18) \/
  (kind = "high"%string /\ 19 <= n <= 36).

Definition outside_kinds : list string :=
  ["even"; "odd"; "low"; "high"]%string.

(** A leg whose amount fields, where present, hold numbers. *)
Definition numeric (v : pyval) : bool :=
  match v with
  | PyInt _ | PyFloat _ => true
  | _ => false
  end.

Definition leg_fields (bet : Bet) : gmap string pyval :=
  match bet with
  | BetDict d => d
  | BetObj o => o
  end.

Definition numeric_amount (bet : Bet) : Prop :=
  forall k v,
    In k ["amount"; "Amount"; "betAmount"]%string ->
    leg_fields bet !! k = Some v -> numeric v = true.

(** *** The scoring record *)

(** The loop that sums the leg amounts for the scoring record. *)
Fixpoint sum_leg_amounts (bet_value : list (string * Bet)) (total : Q) : result Q :=
  match bet_value with
  | [] => Ok total
  | (_, bet) :: rest =>
      match leg_amount bet with
      | Ok bet_amount_inner => sum_leg_amounts rest (total + bet_amount_inner)%Q
      | Raise e => Raise e
      end
  end.

(** [total_bet_amount] *)
Definition total_bet_amount (bet_type : string) (bet_amount : Q)
    (bet_value : list (string * Bet)) : result Q :=
  if String.eqb bet_type "multiple" && nonempty bet_value
  then sum_leg_amounts bet_value 0%Q
  else Ok bet_amount.

(** The handler up to its [return]: the response together with the record
    it hands to [record_game_result_async]. *)
Definition Spin_with_record (house_advantage_enabled : bool) (rng : Rng)
    (request : SpinRequest) : result (SpinResponse * GameResult) :=
  match Spin house_advantage_enabled rng request with
  | Raise e => Raise e
  | Ok r =>
      match total_bet_amount (resolve_bet_type request)
              (resolve_bet_amount request) (req_bet_value request) with
      | Raise e => Raise e
      | Ok total =>
          let won := resp_win r && Qltb 0 (resp_payout r) in
          Ok (r, {| gr_betAmount := total;
                    gr_payout := resp_payout r;
                    gr_win := won;
                    gr_result := if won then "win"%string else "lose"%string;
                    gr_winning_number := resp_winning_number r;
                    gr_color := resp_color r;
                    gr_bet_type := resolve_bet_type request;
                    gr_cheat_active := resp_cheat_active r;
                    gr_cheat_type := resp_cheat_type r;
                    gr_cheat_boosted := resp_cheat_boosted r |})
      end
  end.

(** The numbers the legs of a single straight bet convert to, in order. *)
Fixpoint straight_targets (bet_value : list (string * Bet)) : list Z :=
  match bet_value with
  | [] => []
  | (bet_key, bet) :: rest =>
      match straight_bet_number bet_key bet with
      | Ok t => t :: straight_targets rest
      | Raise _ => straight_targets rest
      end
  end.

(** No leg of a single straight bet makes [int] raise [TypeError]. *)
Definition no_type_error (bet_value : list (string * Bet)) : Prop :=
  Forall (fun item => straight_bet_number (fst item) (snd item) <> Raise TypeError)
         bet_value.

(** The bet types with a branch of their own in the evaluation. *)
Definition known_bet_types : list string :=
  ["multiple"; "red"; "black"; "even"; "odd"; "low"; "high"; "straight"]%string.

Definition sum_amounts (bet_value : list (string * Bet)) : Q :=
  fold_right (fun item acc => (amount_of (snd item) + acc)%Q) 0%Q bet_value.

(** The value the cheat block takes as the target of a leg in the cases
    where the reading does not turn on the truth value of an entry: the
    attribute [value] of an object, else its attribute [Value]; the entry
    ['value'] of a dict when that entry is true, and the entry ['Value'] of
    a dict that has no entry ['value']. A dict whose entry ['value'] is
    false (0, 0.0, the empty string, [None]) is not described. *)
Definition target_field (bet : Bet) (v : pyval) : Prop :=
  match bet with
  | BetObj o =>
      o !! "value"%string = Some v \/
      (o !! "value"%string = None /\ o !! "Value"%string = Some v)
  | BetDict d =>
      (d !! "value"%string = Some v /\ truthy v = true) \/
      (d !! "value"%string = None /\ d !! "Value"%string = Some v)
  end.

(** ** Basic facts *)

Lemma Qltb_lt (x y : Q) : Qltb x y = true <-> (x < y)%Q.
Proof.
  unfold Qltb. rewrite negb_true_iff. split.
  - intros H. apply Qnot_le_lt. intros Hle.
    apply Qle_bool_iff in Hle. congruence.
  - intros H. destruct (Qle_bool y x) eqn:E; [|reflexivity].
    apply Qle_bool_iff in E. exfalso. exact (Qlt_not_le _ _ H E).
Qed.

Lemma Qltb_ge (x y : Q) : Qltb x y = false <-> (y <= x)%Q.
Proof.
  unfold Qltb. rewrite negb_false_iff. apply Qle_bool_iff.
Qed.

Lemma py_in_In (x : Z) (l : list Z) : py_in x l = true <-> In x l.
Proof.
  unfold py_in. rewrite existsb_exists. split.
  - intros [y [Hy Heq]]. apply Z.eqb_eq in Heq. now subst.
  - intros H. exists x. split; [assumption | apply Z.eqb_refl].
Qed.

Lemma in_range (lo hi n : Z) : In n (range lo hi) <-> lo <= n < hi.
Proof.
  unfold range. rewrite in_map_iff. split.
  - intros [i [Hi Hin]]. apply in_seq in Hin. lia.
  - intros H. exists (Z.to_nat (n - lo)). split; [lia | apply in_seq; lia].
Qed.

Lemma wheel_forall (P : Z -> bool) :
  forallb P (range 0 37) = true -> forall n, 0 <= n <= 36 -> P n = true.
Proof.
  intros H n Hn. rewrite forallb_forall in H. apply H, in_range. lia.
Qed.

Lemma on_wheel_iff (n : Z) : on_wheel n = true <-> 0 <= n <= 36.
Proof. unfold on_wheel. rewrite andb_true_iff, !Z.leb_le. reflexivity. Qed.

(** A list of wheel numbers described by a boolean test. *)
Lemma wheel_set_spec (S : list Z) (test : Z -> bool) :
  forallb (fun n => on_wheel n && test n) S = true ->
  forallb (fun n => implb (test n) (py_in n S)) (range 0 37) = true ->
  forall n, In n S <-> 0 <= n <= 36 /\ test n = true.
Proof.
  intros Hsound Hcomplete n. split.
  - intros Hin. rewrite forallb_forall in Hsound.
    specialize (Hsound n Hin). apply andb_true_iff in Hsound as [Hw Ht].
    split; [now apply on_wheel_iff | assumption].
  - intros [Hn Ht]. apply py_in_In.
    pose proof (wheel_forall _ Hcomplete n Hn) as H. cbv beta in H.
    rewrite Ht in H. exact H.
Qed.

Lemma red_spec (n : Z) :
  In n RED_NUMBERS <-> 0 <= n <= 36 /\ String.eqb (get_color n) "red" = true.
Proof. apply (wheel_set_spec RED_NUMBERS (fun n => String.eqb (get_color n) "red")); reflexivity. Qed.

Lemma black_spec (n : Z) :
  In n black_numbers <-> 0 <= n <= 36 /\ String.eqb (get_color n) "black" = true.
Proof. apply (wheel_set_spec black_numbers (fun n => String.eqb (get_color n) "black")); reflexivity. Qed.

Lemma even_spec (n : Z) :
  In n even_numbers <-> 0 <= n <= 36 /\ (0 <? n) && (n mod 2 =? 0) = true.
Proof. apply (wheel_set_spec even_numbers (fun n => (0 <? n) && (n mod 2 =? 0))); reflexivity. Qed.

Lemma odd_spec (n : Z) :
  In n odd_numbers <-> 0 <= n <= 36 /\ (0 <? n) && (n mod 2 =? 1) = true.
Proof. apply (wheel_set_spec odd_numbers (fun n => (0 <? n) && (n mod 2 =? 1))); reflexivity. Qed.

Lemma low_spec (n : Z) :
  In n low_numbers <-> 0 <= n <= 36 /\ (1 <=? n) && (n <=? 18) = true.
Proof. apply (wheel_set_spec low_numbers (fun n => (1 <=? n) && (n <=? 18))); reflexivity. Qed.

Lemma high_spec (n : Z) :
  In n high_numbers <-> 0 <= n <= 36 /\ (19 <=? n) && (n <=? 36) = true.
Proof. apply (wheel_set_spec high_numbers (fun n => (19 <=? n) && (n <=? 36))); reflexivity. Qed.

(** ** The wheel model *)

Lemma get_color_green (n : Z) : get_color n = "green"%string <-> n = 0.
Proof.
  unfold get_color. destruct (Z.eqb_spec n 0) as [->|Hn].
  - split; reflexivity.
  - destruct (py_in n RED_NUMBERS); split; intros H; try discriminate; contradiction.
Qed.

Lemma get_color_red (n : Z) : get_color n = "red"%string <-> In n RED_NUMBERS.
Proof.
  rewrite <- py_in_In. unfold get_color. destruct (Z.eqb_spec n 0) as [->|Hn].
  - split; intros H; discriminate.
  - destruct (py_in n RED_NUMBERS); split; intros H; try discriminate; reflexivity.
Qed.

Lemma get_color_black (n : Z) :
  get_color n = "black"%string <-> n <> 0 /\ ~ In n RED_NUMBERS.
Proof.
  rewrite <- py_in_In. unfold get_color. destruct (Z.eqb_spec n 0) as [->|Hn].
  - split; [intros H; discriminate | intros [H _]; contradiction].
  - destruct (py_in n RED_NUMBERS); split; intros H; try discriminate.
    + destruct H as [_ H]. now contradiction H.
    + split; [assumption | intros H'; discriminate].
    + reflexivity.
Qed.

Lemma black_numbers_iff (n : Z) :
  In n black_numbers <-> 1 <= n <= 36 /\ ~ In n RED_NUMBERS.
Proof.
  unfold black_numbers. rewrite filter_In, in_range, negb_true_iff.
  rewrite <- py_in_In. destruct (py_in n RED_NUMBERS); split; intros [H1 H2];
    try discriminate; try (now contradiction H2); (split; [lia | congruence]).
Qed.

Lemma NoDup_RED_NUMBERS : List.NoDup RED_NUMBERS.
Proof. unfold RED_NUMBERS. repeat (constructor; [simpl; lia|]). constructor. Qed.

Lemma NoDup_black_numbers : List.NoDup black_numbers.
Proof.
  change black_numbers with
    [2; 4; 6; 8; 10; 11; 13; 15; 17; 20; 22; 24; 26; 28; 29; 31; 33; 35].
  repeat (constructor; [simpl; lia|]). constructor.
Qed.

(** C7. [get_color] is total; on the wheel it returns green exactly for 0,
    red exactly for the 18 numbers of [RED_NUMBERS] and black exactly for
    the 18 other numbers of 1..36; the red and the black set are disjoint and
    cover the wheel together with 0. *)
Theorem get_color_partitions_wheel :
  (forall n, get_color n = "green"%string \/ get_color n = "red"%string \/
             get_color n = "black"%string) /\
  (forall n, 0 <= n <= 36 ->
     (get_color n = "green"%string <-> n = 0) /\
     (get_color n = "red"%string <-> In n RED_NUMBERS) /\
     (get_color n = "black"%string <-> In n black_numbers)) /\
  RED_NUMBERS = [1; 3; 5; 7; 9; 12; 14; 16; 18; 19; 21; 23; 25; 27; 30; 32; 34; 36] /\
  length RED_NUMBERS = 18%nat /\ length black_numbers = 18%nat /\
  List.NoDup RED_NUMBERS /\ List.NoDup black_numbers /\
  (forall n, In n black_numbers <-> 1 <= n <= 36 /\ ~ In n RED_NUMBERS) /\
  (forall n, ~ (In n RED_NUMBERS /\ In n black_numbers)) /\
  (forall n, 0 <= n <= 36 <-> n = 0 \/ In n RED_NUMBERS \/ In n black_numbers).
Proof.
  split.
  { intros n. unfold get_color.
    destruct (n =? 0); [now left|]. destruct (py_in n RED_NUMBERS); auto. }
  split.
  { intros n Hn. split; [apply get_color_green|]. split; [apply get_color_red|].
    rewrite get_color_black, black_numbers_iff. split.
    - intros [H0 Hr]. split; [lia | assumption].
    - intros [H1 Hr]. split; [lia | assumption]. }
  split; [reflexivity|]. split; [reflexivity|]. split; [reflexivity|].
  split; [apply NoDup_RED_NUMBERS|]. split; [apply NoDup_black_numbers|].
  split; [apply black_numbers_iff|].
  split.
  { intros n [Hr Hb]. apply black_numbers_iff in Hb. tauto. }
  intros n. split.
  - intros Hn. destruct (Z.eq_dec n 0) as [->|H0]; [now left|right].
    destruct (py_in n RED_NUMBERS) eqn:E.
    + left. now apply py_in_In.
    + right. apply black_numbers_iff. split; [lia|].
      rewrite <- py_in_In. congruence.
  - intros [->|[Hr|Hb]]; [lia | now apply red_spec in Hr| now apply black_spec in Hb].
Qed.

(** ** Reading a leg *)

Lemma is_str_eq (v : pyval) (s : string) : is_str v s = true <-> v = PyStr s.
Proof.
  destruct v as [| z | q | s']; simpl; split; intros H; try discriminate.
  - apply String.eqb_eq in H. now subst.
  - injection H as ->. apply String.eqb_refl.
Qed.

(** Both blocks read the same value from a leg. *)
Lemma leg_number_value_eq (bet : Bet) : leg_number_value bet = leg_value bet.
Proof.
  destruct bet as [d | o]; simpl; [reflexivity|].
  unfold hasattr, getattr.
  destruct (o !! "value"); simpl; [reflexivity|].
  destruct (o !! "Value"); reflexivity.
Qed.

(** ** Even, odd, low and high *)

Lemma outside_wins_zero (kind : string) : ~ outside_wins kind 0.
Proof.
  unfold outside_wins. intros [[_ [H _]]|[[_ [H _]]|[[_ H]|[_ H]]]]; lia.
Qed.

Ltac outside_kind_cases H :=
  unfold outside_kinds in H; simpl in H;
  destruct H as [<-|[<-|[<-|[<-|[]]]]].

Ltac outside_arith :=
  unfold outside_wins;
  rewrite ?andb_true_iff, ?Z.ltb_lt, ?Z.leb_le, ?Z.eqb_eq;
  split;
  [ intros [? ?];
    first [ left; split; [reflexivity|split; assumption]
          | right; left; split; [reflexivity|split; assumption]
          | right; right; left; split; [reflexivity|split; assumption]
          | right; right; right; split; [reflexivity|split; assumption] ]
  | intros [[? ?]|[[? ?]|[[? ?]|[? ?]]]]; try discriminate; tauto ].

Lemma evaluate_outside (kind : string) (bet_amount : Q)
    (bet_value : list (string * Bet)) (n : Z) (color : string) :
  In kind outside_kinds ->
  exists win : bool,
    evaluate kind bet_amount bet_value n color =
      Ok (win, if win then (bet_amount * 2)%Q else 0%Q) /\
    (win = true <-> outside_wins kind n).
Proof.
  intros Hk. outside_kind_cases Hk; unfold evaluate, even_money; simpl;
    eexists; (split; [reflexivity|]); outside_arith.
Qed.

Lemma leg_win_outside (kind : string) (bet : Bet) (n : Z) (color : string) :
  In kind outside_kinds ->
  is_str (leg_type bet) kind = true ->
  (leg_win bet n color = true <-> outside_wins kind n).
Proof.
  intros Hk Ht. apply is_str_eq in Ht. unfold leg_win. rewrite Ht.
  outside_kind_cases Hk; simpl; outside_arith.
Qed.

(** C8. In single mode and in multiple mode alike, an even bet wins iff
    the number is positive and even, an odd bet iff it is positive and odd,
    a low bet iff it lies in 1..18 and a high bet iff it lies in 19..36; a
    drawn 0 therefore makes every such bet lose with payout 0. *)
Theorem outside_bets_exclude_zero (kind : string) :
  In kind outside_kinds ->
  (forall bet_amount bet_value n color,
     exists win : bool,
       evaluate kind bet_amount bet_value n color =
         Ok (win, if win then (bet_amount * 2)%Q else 0%Q) /\
       (win = true <-> outside_wins kind n)) /\
  (forall bet n color,
     is_str (leg_type bet) kind = true ->
     (leg_win bet n color = true <-> outside_wins kind n)) /\
  (forall bet_amount bet_value color,
     evaluate kind bet_amount bet_value 0 color = Ok (false, 0%Q)) /\
  (forall bet color,
     is_str (leg_type bet) kind = true -> leg_win bet 0 color = false) /\
  (forall bet key color st,
     is_str (leg_type bet) kind = true ->
     (exists a, leg_amount bet = Ok a) ->
     multiple_step 0 color st (key, bet) = Ok st).
Proof.
  intros Hk.
  assert (Hleg0 : forall bet color,
             is_str (leg_type bet) kind = true -> leg_win bet 0 color = false).
  { intros bet color Ht. destruct (leg_win bet 0 color) eqn:E; [|reflexivity].
    apply (leg_win_outside kind bet 0 color Hk Ht) in E.
    now apply outside_wins_zero in E. }
  split; [intros; now apply evaluate_outside|].
  split; [intros; now apply leg_win_outside|].
  split.
  { intros bet_amount bet_value color.
    destruct (evaluate_outside kind bet_amount bet_value 0 color Hk)
      as [win [Heq Hiff]].
    destruct win; [|exact Heq].
    exfalso. apply (outside_wins_zero kind). now apply Hiff. }
  split; [exact Hleg0|].
  intros bet key color [win total] Ht [a Ha].
  unfold multiple_step. simpl. rewrite Ha, (Hleg0 bet color Ht). reflexivity.
Qed.

(** ** [random.choice] *)

Lemma choice_In (k : nat) (l : list Z) : l <> [] -> In (choice k l) l.
Proof.
  intros Hl. unfold choice. apply nth_In.
  apply Nat.mod_upper_bound. destruct l; [congruence | simpl; lia].
Qed.

Lemma nonempty_true {A : Type} (l : list A) : nonempty l = true <-> l <> [].
Proof. destruct l; simpl; split; intros H; congruence. Qed.

Lemma filter_map_length {A B : Type} (f : B -> bool) (g : A -> B) (l : list A) :
  length (List.filter f (map g l)) = length (List.filter (fun a => f (g a)) l).
Proof.
  induction l as [|a l IH]; simpl; [reflexivity|].
  destruct (f (g a)); simpl; now rewrite IH.
Qed.

Lemma positions_count (l : list Z) (x : Z) :
  length (List.filter (fun k => nth k l 0 =? x) (seq 0 (length l))) =
  count_occ Z.eq_dec l x.
Proof.
  induction l as [|a l IH]; [reflexivity|].
  cbn [length seq]. rewrite <- seq_shift. cbn [List.filter].
  change (nth 0 (a :: l) 0) with a.
  assert (Hrest :
    length (List.filter (fun k => nth k (a :: l) 0 =? x) (map S (seq 0 (length l)))) =
    count_occ Z.eq_dec l x).
  { rewrite filter_map_length. exact IH. }
  cbn [count_occ]. destruct (Z.eq_dec a x) as [->|Hne].
  - rewrite Z.eqb_refl. cbn [length]. now rewrite Hrest.
  - destruct (Z.eqb_spec a x); [contradiction|]. exact Hrest.
Qed.

(** The weight of a number is the number of its occurrences in the list. *)
Lemma choice_weight_count (l : list Z) (x : Z) :
  choice_weight l x = count_occ Z.eq_dec l x.
Proof.
  unfold choice_weight. rewrite <- positions_count. f_equal.
  apply filter_ext_in. intros k Hk. apply in_seq in Hk. unfold choice.
  rewrite Nat.mod_small by lia. reflexivity.
Qed.

Lemma uniform_choice_NoDup (l : list Z) : List.NoDup l -> uniform_choice l.
Proof.
  intros Hnd x y Hx Hy. rewrite !choice_weight_count.
  rewrite (proj1 (NoDup_count_occ' Z.eq_dec l) Hnd x Hx).
  rewrite (proj1 (NoDup_count_occ' Z.eq_dec l) Hnd y Hy). reflexivity.
Qed.

(** ** The candidates of the cheat block *)

Lemma potential_winning_numbers_app (bet_value : list (string * Bet)) (acc : list Z) :
  fold_left (fun acc item => acc ++ leg_candidates (snd item)) bet_value acc =
  acc ++ flat_map (fun item => leg_candidates (snd item)) bet_value.
Proof.
  revert acc. induction bet_value as [|item rest IH]; intros acc; simpl.
  - now rewrite app_nil_r.
  - rewrite IH. now rewrite <- app_assoc.
Qed.

Lemma potential_winning_numbers_flat_map (bet_value : list (string * Bet)) :
  potential_winning_numbers bet_value =
  flat_map (fun item => leg_candidates (snd item)) bet_value.
Proof. unfold potential_winning_numbers. now rewrite potential_winning_numbers_app. Qed.

(** What a leg contributes, by kind. *)
Lemma leg_candidates_by_kind (bet : Bet) : candidates_by_kind bet.
Proof.
  unfold candidates_by_kind, leg_candidates, cheat_target.
  repeat split; intros H.
  - apply is_str_eq in H. rewrite H. simpl.
    destruct (is_none (leg_value bet)); simpl; [reflexivity|].
    destruct (py_int (leg_value bet)) as [t|e]; [|reflexivity].
    destruct (on_wheel t); reflexivity.
  - apply is_str_eq in H. now rewrite H.
  - apply is_str_eq in H. now rewrite H.
  - apply is_str_eq in H. now rewrite H.
  - apply is_str_eq in H. now rewrite H.
  - apply is_str_eq in H. now rewrite H.
  - apply is_str_eq in H. now rewrite H.
  - repeat match goal with
           | H : Forall _ (_ :: _) |- _ =>
               let H1 := fresh in
               apply Forall_cons_iff in H; destruct H as [H1 H]; rewrite H1
           end.
    reflexivity.
Qed.

(** A number is a candidate of a leg iff it is on the wheel and makes the
    leg win. *)
Lemma leg_candidates_spec (bet : Bet) (n : Z) :
  In n (leg_candidates bet) <->
  0 <= n <= 36 /\ leg_win bet n (get_color n) = true.
Proof.
  unfold leg_candidates, leg_win. rewrite leg_number_value_eq.
  destruct (leg_type bet) as [| z | q | s]; simpl;
    try (split; [intros [] | intros [_ H]; discriminate]).
  destruct (String.eqb_spec s "straight") as [->|Hs]; simpl.
  { destruct (is_none (leg_value bet)); simpl;
      [split; [intros [] | intros [_ H]; discriminate]|].
    destruct (py_int (leg_value bet)) as [t|e];
      [|split; [intros [] | intros [_ H]; discriminate]].
    destruct (on_wheel t) eqn:Ew.
    - apply on_wheel_iff in Ew. simpl. rewrite Z.eqb_eq. split.
      + intros [<-|[]]. split; [assumption | reflexivity].
      + intros [_ ->]. now left.
    - split; [intros []|]. intros [Hn Heq]. apply Z.eqb_eq in Heq. subst t.
      apply on_wheel_iff in Hn. congruence. }
  destruct (String.eqb_spec s "red") as [->|Hr]; [apply red_spec|].
  destruct (String.eqb_spec s "black") as [->|Hb]; [apply black_spec|].
  destruct (String.eqb_spec s "even") as [->|He]; [apply even_spec|].
  destruct (String.eqb_spec s "odd") as [->|Ho]; [apply odd_spec|].
  destruct (String.eqb_spec s "low") as [->|Hl]; [apply low_spec|].
  destruct (String.eqb_spec s "high") as [->|Hh]; [apply high_spec|].
  split; [intros [] | intros [_ H]; discriminate].
Qed.

Lemma NoDup_leg_candidates (bet : Bet) : List.NoDup (leg_candidates bet).
Proof.
  unfold leg_candidates.
  destruct (is_str (leg_type bet) "straight" && negb (is_none (leg_value bet))).
  { destruct (py_int (leg_value bet)) as [t|e]; [|constructor].
    destruct (on_wheel t); [|constructor].
    constructor; [intros [] | constructor]. }
  destruct (is_str (leg_type bet) "red"); [apply NoDup_RED_NUMBERS|].
  destruct (is_str (leg_type bet) "black"); [apply NoDup_black_numbers|].
  repeat match goal with
         | |- List.NoDup (if ?b then _ else _) => destruct b
         end;
    try (vm_compute; repeat (constructor; [simpl; lia|]); constructor).
Qed.

(** A leg holds a number once if the number makes it win, and not at
    all otherwise. *)
Lemma leg_candidates_count (bet : Bet) (n : Z) :
  0 <= n <= 36 ->
  count_occ Z.eq_dec (leg_candidates bet) n =
  if leg_win bet n (get_color n) then 1%nat else 0%nat.
Proof.
  intros Hn. destruct (leg_win bet n (get_color n)) eqn:E.
  - apply (NoDup_count_occ' Z.eq_dec); [apply NoDup_leg_candidates|].
    apply leg_candidates_spec. now split.
  - apply count_occ_not_In. rewrite leg_candidates_spec. intros [_ H]. congruence.
Qed.

Lemma potential_winning_numbers_spec (bet_value : list (string * Bet)) (n : Z) :
  In n (potential_winning_numbers bet_value) <->
  0 <= n <= 36 /\
  exists item, In item bet_value /\ leg_win (snd item) n (get_color n) = true.
Proof.
  rewrite potential_winning_numbers_flat_map, in_flat_map. split.
  - intros [item [Hin Hc]]. apply leg_candidates_spec in Hc as [Hn Hw].
    split; [assumption | now exists item].
  - intros [Hn [item [Hin Hw]]]. exists item. split; [assumption|].
    apply leg_candidates_spec. now split.
Qed.

(** The weight of a wheel number among the candidates is the number of
    legs it makes win. *)
Lemma potential_winning_numbers_weight (bet_value : list (string * Bet)) (n : Z) :
  0 <= n <= 36 ->
  choice_weight (potential_winning_numbers bet_value) n =
  length (winning_legs n (get_color n) bet_value).
Proof.
  intros Hn. rewrite choice_weight_count, potential_winning_numbers_flat_map.
  unfold winning_legs.
  induction bet_value as [|item rest IH]; [reflexivity|].
  cbn [flat_map List.filter]. rewrite count_occ_app, IH.
  rewrite (leg_candidates_count _ _ Hn).
  destruct (leg_win (snd item) n (get_color n)); reflexivity.
Qed.

(** ** The cheat block *)

Lemma apply_cheat_fires (rng : Rng) (bet_type : string)
    (bet_value : list (string * Bet)) (cheat_active : bool) (cheat_type : string)
    (n : Z) (color : string) :
  apply_cheat rng bet_type bet_value cheat_active cheat_type n color =
  if cheat_fires rng cheat_active cheat_type
  then (cheat_replace (rng_choice rng) bet_type bet_value n color, true)
  else (n, color, false).
Proof.
  unfold apply_cheat, cheat_fires.
  destruct (cheat_active && negb (String.eqb cheat_type "")); simpl; reflexivity.
Qed.

Lemma choice_red (k : nat) :
  In (choice k RED_NUMBERS) RED_NUMBERS /\
  get_color (choice k RED_NUMBERS) = "red"%string.
Proof.
  assert (H : In (choice k RED_NUMBERS) RED_NUMBERS) by (now apply choice_In).
  split; [assumption | now apply get_color_red].
Qed.

Lemma choice_black (k : nat) :
  In (choice k black_numbers) black_numbers /\
  get_color (choice k black_numbers) = "black"%string.
Proof.
  assert (H : In (choice k black_numbers) black_numbers) by (now apply choice_In).
  split; [assumption|]. apply black_spec in H as [_ H]. now apply String.eqb_eq.
Qed.

Lemma cheat_straight_color (bet_value : list (string * Bet)) (n : Z) :
  snd (cheat_straight bet_value n (get_color n)) =
  get_color (fst (cheat_straight bet_value n (get_color n))).
Proof.
  induction bet_value as [|[key bet] rest IH]; simpl; [reflexivity|].
  destruct (is_none (leg_value bet)); [exact IH|].
  destruct (py_int (leg_value bet)) as [t|e]; [|exact IH].
  destruct (on_wheel t); [reflexivity | exact IH].
Qed.

(** The colour handed to the evaluation is the colour of the final
    number. *)
Lemma cheat_replace_color (k : nat) (bet_type : string)
    (bet_value : list (string * Bet)) (n : Z) :
  snd (cheat_replace k bet_type bet_value n (get_color n)) =
  get_color (fst (cheat_replace k bet_type bet_value n (get_color n))).
Proof.
  unfold cheat_replace.
  destruct (String.eqb bet_type "multiple" && nonempty bet_value).
  { destruct (nonempty (potential_winning_numbers bet_value)); reflexivity. }
  destruct (String.eqb bet_type "red" && negb (String.eqb (get_color n) "red")).
  { simpl. symmetry. apply choice_red. }
  destruct (String.eqb bet_type "black" && negb (String.eqb (get_color n) "black")).
  { simpl. symmetry. apply choice_black. }
  destruct (String.eqb bet_type "straight" && nonempty bet_value);
    [apply cheat_straight_color | reflexivity].
Qed.

Lemma cheated_color (rng : Rng) (request : SpinRequest) :
  snd (fst (cheated rng request)) = get_color (fst (fst (cheated rng request))).
Proof.
  unfold cheated. rewrite apply_cheat_fires.
  destruct (cheat_fires rng _ _); simpl; [apply cheat_replace_color | reflexivity].
Qed.

(** ** The handler as the sequence of its three blocks *)

Lemma Spin_stages (house_advantage_enabled : bool) (rng : Rng)
    (request : SpinRequest) :
  Spin house_advantage_enabled rng request =
  match evaluated rng request with
  | Raise e => Raise e
  | Ok (win, payout) =>
      Ok (response_of request (cheated rng request)
            (house_advantage house_advantage_enabled (rng_house rng) win payout))
  end.
Proof.
  unfold Spin, evaluated, cheated, response_of.
  destruct (apply_cheat rng _ _ _ _ _ _) as [[n c] b]. simpl.
  destruct (evaluate _ _ _ n c) as [[win payout]|e]; [|reflexivity].
  destruct (house_advantage _ _ win payout); reflexivity.
Qed.

(** ** The house advantage *)

(** C3. The house advantage is applied to the result of the evaluation.
    It changes nothing when the flag is off, when the evaluation lost or
    when the payout is not positive; on a win with a positive payout and the
    flag on, a draw below 0.25 gives a loss with payout 0 and any other draw
    leaves the result as it is. It never turns a loss into a win. *)
Theorem house_advantage_after_evaluation :
  (forall he rng request,
     Spin he rng request =
     match evaluated rng request with
     | Raise e => Raise e
     | Ok (win, payout) =>
         Ok (response_of request (cheated rng request)
               (house_advantage he (rng_house rng) win payout))
     end) /\
  (forall roll win payout, house_advantage false roll win payout = (win, payout)) /\
  (forall he roll payout, house_advantage he roll false payout = (false, payout)) /\
  (forall he roll win payout,
     (payout <= 0)%Q -> house_advantage he roll win payout = (win, payout)) /\
  (forall roll payout,
     (0 < payout)%Q -> (roll < 1 # 4)%Q ->
     house_advantage true roll true payout = (false, 0%Q)) /\
  (forall roll payout,
     (0 < payout)%Q -> (1 # 4 <= roll)%Q ->
     house_advantage true roll true payout = (true, payout)) /\
  (forall he roll win payout,
     fst (house_advantage he roll win payout) = true -> win = true).
Proof.
  split; [exact Spin_stages|].
  split.
  { intros roll win payout. unfold house_advantage.
    now rewrite andb_false_r. }
  split; [reflexivity|].
  split.
  { intros he roll win payout Hp. unfold house_advantage.
    apply Qltb_ge in Hp. rewrite Hp. now rewrite andb_false_r. }
  split.
  { intros roll payout Hp Hr. unfold house_advantage.
    apply Qltb_lt in Hp, Hr. now rewrite Hp, Hr. }
  split.
  { intros roll payout Hp Hr. unfold house_advantage.
    apply Qltb_lt in Hp. apply Qltb_ge in Hr. now rewrite Hp, Hr. }
  intros he roll win payout. unfold house_advantage.
  destruct win; [reflexivity|]. simpl. intros H. discriminate.
Qed.

(** ** When the cheat block acts *)

Lemma get_cheat_boost_chance_unknown (cheat_type : string) :
  ~ In cheat_type known_cheat_types -> get_cheat_boost_chance cheat_type = 0%Q.
Proof.
  intros H. unfold get_cheat_boost_chance, known_cheat_types in *. simpl in H.
  destruct (String.eqb_spec cheat_type "ballControl"); [exfalso; auto|].
  destruct (String.eqb_spec cheat_type "wheelBias"); [exfalso; auto|].
  destruct (String.eqb_spec cheat_type "magneticField"); [exfalso; auto|].
  destruct (String.eqb_spec cheat_type "sectorPrediction"); [exfalso; auto 6|].
  reflexivity.
Qed.

Lemma cheat_fires_inactive (rng : Rng) (cheat_type : string) :
  cheat_fires rng false cheat_type = false.
Proof. reflexivity. Qed.

Lemma cheat_fires_unknown (rng : Rng) (cheat_active : bool) (cheat_type : string) :
  (0 <= rng_cheat rng)%Q -> ~ In cheat_type known_cheat_types ->
  cheat_fires rng cheat_active cheat_type = false.
Proof.
  intros Hr Hk. unfold cheat_fires.
  rewrite (get_cheat_boost_chance_unknown _ Hk).
  apply Qltb_ge in Hr. rewrite Hr. now rewrite andb_false_r.
Qed.

Lemma Spin_response (he : bool) (rng : Rng) (request : SpinRequest)
    (r : SpinResponse) :
  Spin he rng request = Ok r ->
  exists win payout,
    evaluated rng request = Ok (win, payout) /\
    r = response_of request (cheated rng request)
          (house_advantage he (rng_house rng) win payout).
Proof.
  rewrite Spin_stages. destruct (evaluated rng request) as [[win payout]|e];
    intros H; [|discriminate].
  injection H as <-. now exists win, payout.
Qed.

(** C9. With [cheat_active] false the cheat block returns the drawn number
    and its colour with [cheat_boosted] false, whatever the cheat type. A
    cheat type outside the table has boost chance 0, so the block does the
    same for it even with [cheat_active] true, the draw of [random.random()]
    being at least 0. *)
Theorem cheat_inactive_or_unknown_kind :
  (forall rng bet_type bet_value cheat_type n color,
     apply_cheat rng bet_type bet_value false cheat_type n color =
     (n, color, false)) /\
  (forall cheat_type,
     ~ In cheat_type known_cheat_types ->
     get_cheat_boost_chance cheat_type = 0%Q) /\
  (forall rng bet_type bet_value cheat_active cheat_type n color,
     (0 <= rng_cheat rng)%Q ->
     ~ In cheat_type known_cheat_types ->
     apply_cheat rng bet_type bet_value cheat_active cheat_type n color =
     (n, color, false)) /\
  (forall he rng request r,
     Spin he rng request = Ok r ->
     req_cheat_active request = false \/
     ((0 <= rng_cheat rng)%Q /\ ~ In (req_cheat_type request) known_cheat_types) ->
     resp_winning_number r = rng_randint rng /\
     resp_color r = get_color (rng_randint rng) /\
     resp_cheat_boosted r = false).
Proof.
  split; [reflexivity|].
  split; [exact get_cheat_boost_chance_unknown|].
  split.
  { intros rng bet_type bet_value cheat_active cheat_type n color Hr Hk.
    rewrite apply_cheat_fires. now rewrite cheat_fires_unknown. }
  intros he rng request r Hspin Hcase.
  apply Spin_response in Hspin as [win [payout [_ ->]]].
  assert (Hc : cheated rng request =
               (rng_randint rng, get_color (rng_randint rng), false)).
  { unfold cheated. rewrite apply_cheat_fires.
    destruct Hcase as [Hoff | [Hr Hk]].
    - now rewrite Hoff.
    - now rewrite cheat_fires_unknown. }
  unfold response_of. rewrite Hc. simpl. auto.
Qed.

(** C6, as the code has it. [cheat_boosted] is the outcome of the cheat
    test alone: it is true iff [cheat_active] holds, the cheat type is not
    empty and the draw is below the boost chance of the type, whether or not
    the number is then replaced. A number that differs from the one drawn
    implies [cheat_boosted]. *)
Theorem cheat_boosted_is_the_cheat_test :
  (forall rng bet_type bet_value cheat_active cheat_type n color,
     snd (apply_cheat rng bet_type bet_value cheat_active cheat_type n color) =
     cheat_fires rng cheat_active cheat_type) /\
  (forall rng cheat_active cheat_type,
     cheat_fires rng cheat_active cheat_type = true <->
     cheat_active = true /\ cheat_type <> ""%string /\
     (rng_cheat rng < get_cheat_boost_chance cheat_type)%Q) /\
  (forall he rng request r,
     Spin he rng request = Ok r ->
     resp_cheat_boosted r =
       cheat_fires rng (req_cheat_active request) (req_cheat_type request)) /\
  (forall he rng request r,
     Spin he rng request = Ok r ->
     resp_winning_number r <> rng_randint rng ->
     resp_cheat_boosted r = true).
Proof.
  assert (Hsnd : forall rng bet_type bet_value cheat_active cheat_type n color,
     snd (apply_cheat rng bet_type bet_value cheat_active cheat_type n color) =
     cheat_fires rng cheat_active cheat_type).
  { intros. rewrite apply_cheat_fires. now destruct (cheat_fires _ _ _). }
  split; [exact Hsnd|].
  split.
  { intros rng cheat_active cheat_type. unfold cheat_fires.
    rewrite !andb_true_iff, negb_true_iff, Qltb_lt.
    destruct (String.eqb_spec cheat_type ""); split;
      intros [[H1 H2] H3] || intros [H1 [H2 H3]]; try discriminate;
      try contradiction; auto. }
  split.
  { intros he rng request r Hspin.
    apply Spin_response in Hspin as [win [payout [_ ->]]].
    unfold response_of, cheated. simpl. apply Hsnd. }
  intros he rng request r Hspin Hne.
  apply Spin_response in Hspin as [win [payout [_ ->]]].
  unfold response_of, cheated in *. simpl in *.
  rewrite apply_cheat_fires in *.
  destruct (cheat_fires rng _ _); [reflexivity|]. simpl in Hne. congruence.
Qed.

(** ** The target of a straight leg *)

Lemma target_field_leg_value (bet : Bet) (v : pyval) :
  target_field bet v -> leg_value bet = v.
Proof.
  destruct bet as [d | o]; simpl; unfold dict_get, getattr, py_or.
  - intros [[Hv Ht] | [Hv HV]]; rewrite Hv; simpl.
    + now rewrite Ht.
    + now rewrite HV.
  - intros [Hv | [Hv HV]]; rewrite Hv; simpl; [reflexivity|]. now rewrite HV.
Qed.

Lemma target_field_cheat_target (bet : Bet) (v : pyval) (t : Z) :
  target_field bet v -> py_int v = Ok t -> 0 <= t <= 36 ->
  cheat_target bet = Some t.
Proof.
  intros Hfield Hint Ht. unfold cheat_target.
  rewrite (target_field_leg_value bet v Hfield), Hint.
  apply on_wheel_iff in Ht. rewrite Ht.
  destruct v; simpl in *; try reflexivity. discriminate.
Qed.

Lemma straight_leg_candidates (bet : Bet) (v : pyval) (t : Z) :
  is_str (leg_type bet) "straight" = true ->
  target_field bet v -> py_int v = Ok t -> 0 <= t <= 36 ->
  leg_candidates bet = [t].
Proof.
  intros Hkind Hfield Hint Ht.
  destruct (leg_candidates_by_kind bet) as [Hstraight _].
  rewrite (Hstraight Hkind).
  now rewrite (target_field_cheat_target bet v t Hfield Hint Ht).
Qed.

(** ** The cheat block in multiple mode *)

(** C4, as the code has it. When the cheat test succeeds in multiple mode,
    the candidates are the per-leg lists in iteration order, one after the
    other: a red, black, even, odd, low or high leg gives the numbers of
    that kind, and a straight leg gives its target when that converts to a
    number in 0..36, the target being the attribute [value] (else [Value])
    of an object, the true entry ['value'] of a dict, or the entry ['Value']
    of a dict without ['value']. A number is a candidate iff it is on the
    wheel and makes at least one leg win. If there are candidates, the
    number becomes the candidate at the drawn position and the colour is the
    colour of that number; the weight of a number is the number of legs it
    makes win, not 1. Without candidates the number and the colour stay. *)
Theorem cheat_multiple_picks_a_candidate_position
    (rng : Rng) (bet_value : list (string * Bet))
    (cheat_active : bool) (cheat_type : string) (n : Z) (color : string) :
  cheat_fires rng cheat_active cheat_type = true ->
  nonempty bet_value = true ->
  let potential := potential_winning_numbers bet_value in
  let picked := choice (rng_choice rng) potential in
  potential = flat_map (fun item => leg_candidates (snd item)) bet_value /\
  (forall bet, candidates_by_kind bet) /\
  (forall x,
     In x potential <->
     0 <= x <= 36 /\
     exists item, In item bet_value /\ leg_win (snd item) x (get_color x) = true) /\
  (potential <> [] ->
     apply_cheat rng "multiple" bet_value cheat_active cheat_type n color =
       (picked, get_color picked, true) /\
     In picked potential) /\
  (forall x,
     0 <= x <= 36 ->
     choice_weight potential x = length (winning_legs x (get_color x) bet_value)) /\
  (potential = [] ->
     apply_cheat rng "multiple" bet_value cheat_active cheat_type n color =
       (n, color, true)) /\
  (forall item v t,
     In item bet_value ->
     is_str (leg_type (snd item)) "straight" = true ->
     target_field (snd item) v ->
     py_int v = Ok t ->
     0 <= t <= 36 ->
     leg_candidates (snd item) = [t] /\ In t potential).
Proof.
  intros Hfire Hlegs potential picked.
  split; [apply potential_winning_numbers_flat_map|].
  split; [exact leg_candidates_by_kind|].
  split; [intros x; apply potential_winning_numbers_spec|].
  assert (Hrep : cheat_replace (rng_choice rng) "multiple" bet_value n color =
                 if nonempty potential then (picked, get_color picked)
                 else (n, color)).
  { unfold cheat_replace. simpl. now rewrite Hlegs. }
  split.
  { intros Hne. split; [|now apply choice_In].
    rewrite apply_cheat_fires, Hfire, Hrep.
    apply nonempty_true in Hne. now rewrite Hne. }
  split; [intros x Hx; now apply potential_winning_numbers_weight|].
  split.
  { intros Hempty. rewrite apply_cheat_fires, Hfire, Hrep.
    now rewrite Hempty. }
  intros item v t Hin Hkind Hfield Hint Ht.
  assert (Hc : leg_candidates (snd item) = [t])
    by (now apply (straight_leg_candidates (snd item) v t)).
  split; [exact Hc|].
  unfold potential. rewrite potential_winning_numbers_flat_map.
  apply in_flat_map. exists item. split; [exact Hin|]. rewrite Hc. now left.
Qed.

(** ** The cheat block in single mode *)

Lemma evaluate_black (bet_amount : Q) (bet_value : list (string * Bet))
    (n : Z) (color : string) :
  evaluate "black" bet_amount bet_value n color =
  Ok (even_money bet_amount (String.eqb color "black")).
Proof. reflexivity. Qed.

(** The replacements of the cheat block in single mode that hold for
    every request: a red (black) bet on a draw of another colour gets the
    red (black) number at the drawn position of the 18-number list, every
    number of which has the same weight; a straight bet gets the target the
    cheat block reads from its first leg; the colour handed to the
    evaluation is the colour of the final number, so the evaluation of a
    black bet after a red draw is a win at twice the amount, which the
    response carries through the house advantage. *)
Theorem cheat_single_mode_replacement
    (rng : Rng) (bet_value : list (string * Bet))
    (cheat_active : bool) (cheat_type : string) (n : Z) :
  cheat_fires rng cheat_active cheat_type = true ->
  let k := rng_choice rng in
  (get_color n <> "red"%string ->
     apply_cheat rng "red" bet_value cheat_active cheat_type n (get_color n) =
       (choice k RED_NUMBERS, "red"%string, true) /\
     In (choice k RED_NUMBERS) RED_NUMBERS /\
     get_color (choice k RED_NUMBERS) = "red"%string) /\
  (get_color n <> "black"%string ->
     apply_cheat rng "black" bet_value cheat_active cheat_type n (get_color n) =
       (choice k black_numbers, "black"%string, true) /\
     In (choice k black_numbers) black_numbers /\
     get_color (choice k black_numbers) = "black"%string) /\
  (length RED_NUMBERS = 18%nat /\ uniform_choice RED_NUMBERS /\
   length black_numbers = 18%nat /\ uniform_choice black_numbers) /\
  (forall key bet rest t,
     cheat_target bet = Some t ->
     apply_cheat rng "straight" ((key, bet) :: rest) cheat_active cheat_type
       n (get_color n) = (t, get_color t, true)) /\
  (forall he request,
     resolve_bet_type request = "black"%string ->
     req_bet_value request = bet_value ->
     req_cheat_active request = cheat_active ->
     req_cheat_type request = cheat_type ->
     rng_randint rng = n ->
     get_color n = "red"%string ->
     snd (fst (cheated rng request)) = get_color (fst (fst (cheated rng request))) /\
     In (fst (fst (cheated rng request))) black_numbers /\
     evaluated rng request = Ok (true, (resolve_bet_amount request * 2)%Q) /\
     Spin he rng request =
       Ok (response_of request (cheated rng request)
             (house_advantage he (rng_house rng) true
                (resolve_bet_amount request * 2)%Q)) /\
     (he = false ->
      exists r, Spin he rng request = Ok r /\ resp_win r = true /\
                resp_payout r = (resolve_bet_amount request * 2)%Q)).
Proof.
  intros Hfire k.
  assert (Hred : get_color n <> "red"%string ->
     apply_cheat rng "red" bet_value cheat_active cheat_type n (get_color n) =
       (choice k RED_NUMBERS, "red"%string, true)).
  { intros Hc. rewrite apply_cheat_fires, Hfire. unfold cheat_replace. simpl.
    destruct (String.eqb_spec (get_color n) "red"); [contradiction | reflexivity]. }
  assert (Hblack : get_color n <> "black"%string ->
     apply_cheat rng "black" bet_value cheat_active cheat_type n (get_color n) =
       (choice k black_numbers, "black"%string, true)).
  { intros Hc. rewrite apply_cheat_fires, Hfire. unfold cheat_replace. simpl.
    destruct (String.eqb_spec (get_color n) "black"); [contradiction | reflexivity]. }
  split; [intros Hc; split; [now apply Hred | apply choice_red]|].
  split; [intros Hc; split; [now apply Hblack | apply choice_black]|].
  split.
  { split; [reflexivity|]. split; [apply uniform_choice_NoDup, NoDup_RED_NUMBERS|].
    split; [reflexivity | apply uniform_choice_NoDup, NoDup_black_numbers]. }
  split.
  { intros key bet rest t Ht. rewrite apply_cheat_fires, Hfire.
    unfold cheat_replace. simpl. unfold cheat_target in Ht.
    destruct (is_none (leg_value bet)); [discriminate|].
    destruct (py_int (leg_value bet)) as [t'|e]; [|discriminate].
    destruct (on_wheel t'); [|discriminate]. now injection Ht as ->. }
  intros he request Hbt Hbv Hca Hct Hn Hc.
  assert (Hch : cheated rng request =
                (choice k black_numbers, "black"%string, true)).
  { unfold cheated. rewrite Hbt, Hbv, Hca, Hct, Hn. apply Hblack.
    rewrite Hc. discriminate. }
  assert (Hev : evaluated rng request =
                Ok (true, (resolve_bet_amount request * 2)%Q)).
  { unfold evaluated. rewrite Hch, Hbt. reflexivity. }
  assert (Hspin : Spin he rng request =
       Ok (response_of request (cheated rng request)
             (house_advantage he (rng_house rng) true
                (resolve_bet_amount request * 2)%Q))).
  { now rewrite Spin_stages, Hev. }
  split; [apply cheated_color|].
  split; [rewrite Hch; apply choice_black|].
  split; [exact Hev|].
  split; [exact Hspin|].
  intros ->. eexists. split; [exact Hspin|].
  unfold response_of, house_advantage. simpl. rewrite andb_false_r. auto.
Qed.

(** C5. The straight part fails on the code for a dict leg whose target
    is 0: the cheat block reads the target with
    [bet.get('value') or bet.get('Value')], the integer 0 is false, so the
    target is lost and a successful cheat test keeps the drawn number. The
    same fields on an object, read with [getattr], put the ball on 0, as
    the test [0 <= straight_number <= 36] of the block intends. *)
Theorem cheat_straight_dict_target_0_is_dropped
    (rng : Rng) (bet_key : string) (fields : gmap string pyval)
    (cheat_active : bool) (cheat_type : string) (n : Z) :
  cheat_fires rng cheat_active cheat_type = true ->
  fields !! "value"%string = Some (PyInt 0) ->
  fields !! "Value"%string = None ->
  apply_cheat rng "straight" [(bet_key, BetDict fields)] cheat_active cheat_type
    n (get_color n) = (n, get_color n, true) /\
  apply_cheat rng "straight" [(bet_key, BetObj fields)] cheat_active cheat_type
    n (get_color n) = (0, "green"%string, true).
Proof.
  intros Hfire Hv HV. rewrite !apply_cheat_fires, Hfire.
  unfold cheat_replace. simpl. unfold dict_get, getattr, py_or.
  rewrite Hv, HV. simpl. split; reflexivity.
Qed.

(** ** Amounts *)

Lemma py_float_numeric (v : pyval) :
  numeric v = true -> exists a, py_float v = Ok a.
Proof. destruct v; simpl; intros H; try discriminate; eauto. Qed.

Lemma py_or_numeric (v w : pyval) :
  numeric v = true \/ v = PyNone ->
  numeric w = true \/ w = PyNone ->
  numeric (py_or v w) = true \/ py_or v w = PyNone.
Proof.
  intros [Hv | ->] Hw; unfold py_or; [|exact Hw].
  destruct (truthy v); [now left | exact Hw].
Qed.

Lemma numeric_field (bet : Bet) (k : string) :
  numeric_amount bet ->
  In k ["amount"; "Amount"; "betAmount"]%string ->
  numeric (dict_get (leg_fields bet) k) = true \/
  dict_get (leg_fields bet) k = PyNone.
Proof.
  intros Hnum Hk. unfold dict_get.
  destruct (leg_fields bet !! k) as [v|] eqn:E; simpl; [left | now right].
  exact (Hnum k v Hk E).
Qed.

(** The conversion of the amount succeeds for every leg whose amount
    fields are numbers or absent. *)
Lemma leg_amount_numeric (bet : Bet) :
  numeric_amount bet -> exists a, leg_amount bet = Ok a.
Proof.
  intros Hnum.
  pose proof (numeric_field bet "amount" Hnum) as H1.
  pose proof (numeric_field bet "Amount" Hnum) as H2.
  pose proof (numeric_field bet "betAmount" Hnum) as H3.
  simpl in H1, H2, H3.
  specialize (H1 ltac:(tauto)). specialize (H2 ltac:(tauto)).
  specialize (H3 ltac:(tauto)).
  destruct bet as [d | o]; simpl in *; apply py_float_numeric.
  - pose proof (py_or_numeric _ _ (py_or_numeric _ _ H1 H2) H3) as [H | H].
    + unfold py_or at 1. destruct (truthy _); [exact H | reflexivity].
    + unfold py_or at 1. rewrite H. reflexivity.
  - unfold getattr. clear H1 H2 H3. unfold numeric_amount in Hnum. simpl in Hnum.
    destruct (o !! "amount") as [v1|] eqn:E1; simpl;
      [apply (Hnum "amount"%string); [tauto | exact E1]|].
    destruct (o !! "Amount") as [v2|] eqn:E2; simpl;
      [apply (Hnum "Amount"%string); [tauto | exact E2]|].
    destruct (o !! "betAmount") as [v3|] eqn:E3; simpl;
      [apply (Hnum "betAmount"%string); [tauto | exact E3]|].
    reflexivity.
Qed.

Lemma amounts_ok_numeric (bet_value : list (string * Bet)) :
  Forall (fun item => numeric_amount (snd item)) bet_value ->
  amounts_ok bet_value.
Proof.
  unfold amounts_ok. intros H. eapply List.Forall_impl; [|exact H].
  intros item. apply leg_amount_numeric.
Qed.

(** ** Multiple bets *)


Lemma sum_payouts_cons (item : string * Bet) (legs : list (string * Bet)) :
  sum_payouts (item :: legs) = (leg_payout (snd item) + sum_payouts legs)%Q.
Proof. reflexivity. Qed.

(** The loop from any state: the flag is or-ed with the legs' results and
    the payouts of the winning legs are added to the total. *)
Lemma multiple_loop_spec (n : Z) (color : string)
    (bet_value : list (string * Bet)) :
  amounts_ok bet_value ->
  forall (win : bool) (total : Q),
  exists payout,
    multiple_loop n color bet_value (win, total) =
      Ok (win || any_leg_wins n color bet_value, payout) /\
    payout == total + sum_payouts (winning_legs n color bet_value).
Proof.
  unfold amounts_ok, any_leg_wins, winning_legs.
  induction bet_value as [|[key bet] rest IH]; intros Hok win total.
  - exists total. simpl. rewrite orb_false_r. split; [reflexivity | ring].
  - apply Forall_cons_iff in Hok as [[a Ha] Hok]. simpl in Ha.
    cbn [multiple_loop multiple_step snd existsb List.filter]. rewrite Ha.
    destruct (leg_win bet n color) eqn:Ew.
    + destruct (is_str (leg_type bet) "straight") eqn:Es.
      * destruct (IH Hok true (total + a * 36)%Q) as [payout [Hloop Hsum]].
        exists payout. split; [rewrite Hloop; simpl; now rewrite orb_true_r|].
        rewrite Hsum, sum_payouts_cons. cbn [snd].
        assert (Hpay : leg_payout bet == a * 36).
        { unfold leg_payout, amount_of. rewrite Es, Ha. ring. }
        rewrite Hpay. ring.
      * destruct (IH Hok true (total + a * 2)%Q) as [payout [Hloop Hsum]].
        exists payout. split; [rewrite Hloop; simpl; now rewrite orb_true_r|].
        rewrite Hsum, sum_payouts_cons. cbn [snd].
        assert (Hpay : leg_payout bet == a * 2).
        { unfold leg_payout, amount_of. rewrite Es, Ha. ring. }
        rewrite Hpay. ring.
    + destruct (IH Hok win total) as [payout [Hloop Hsum]].
      exists payout. split; [exact Hloop | exact Hsum].
Qed.

Lemma evaluate_multiple (bet_amount : Q) (bet_value : list (string * Bet))
    (n : Z) (color : string) :
  amounts_ok bet_value ->
  exists payout,
    evaluate "multiple" bet_amount bet_value n color =
      Ok (any_leg_wins n color bet_value, payout) /\
    payout == sum_payouts (winning_legs n color bet_value).
Proof.
  intros Hok. destruct bet_value as [|item rest].
  - exists 0%Q. split; reflexivity.
  - destruct (multiple_loop_spec n color (item :: rest) Hok false 0%Q)
      as [payout [Hloop Hsum]].
    exists payout. split; [exact Hloop|]. rewrite Hsum. ring.
Qed.


(** ** A single straight bet *)

Lemma resolve_bet_amount_nonzero (request : SpinRequest) :
  ~ req_bet_amount request == 0 ->
  resolve_bet_amount request = req_bet_amount request.
Proof.
  intros H. unfold resolve_bet_amount.
  destruct (Qeq_bool (req_bet_amount request) 0) eqn:E; [|reflexivity].
  apply Qeq_bool_iff in E. contradiction.
Qed.

Lemma resolve_bet_amount_zero (request : SpinRequest) :
  req_bet_amount request == 0 -> resolve_bet_amount request = 10%Q.
Proof.
  intros H. unfold resolve_bet_amount.
  apply Qeq_bool_iff in H. now rewrite H.
Qed.

(** C2, as the code has it. For a single straight bet with target [t] and
    an amount [a] other than 0, without cheat and without house advantage,
    the payout is 0 or 36 times [a], and it is 36 times [a] exactly when the
    drawn number is [t]. *)
Theorem single_straight_payout
    (rng : Rng) (bet_key : string) (bet : Bet) (t : Z) (a : Q)
    (cheat_type : string) :
  straight_bet_number bet_key bet = Ok t ->
  ~ a == 0 ->
  exists r,
    Spin false rng (straight_request a bet_key bet cheat_type) = Ok r /\
    resp_winning_number r = rng_randint rng /\
    resp_win r = (rng_randint rng =? t) /\
    (resp_payout r = 0%Q \/ resp_payout r = (a * 36)%Q) /\
    (resp_payout r == 36 * a <-> rng_randint rng = t) /\
    (resp_payout r == 0 <-> rng_randint rng <> t).
Proof.
  intros Ht Ha. set (request := straight_request a bet_key bet cheat_type).
  set (n := rng_randint rng).
  assert (Hch : cheated rng request = (n, get_color n, false)) by reflexivity.
  assert (Hamt : resolve_bet_amount request = a)
    by (now apply resolve_bet_amount_nonzero).
  assert (Hev : evaluated rng request =
                if n =? t then Ok (true, (a * 36)%Q) else Ok (false, 0%Q)).
  { unfold evaluated. rewrite Hch, Hamt. cbn [fst snd].
    unfold evaluate, request, straight_request, resolve_bet_type. simpl.
    rewrite Ht. now destruct (n =? t). }
  assert (Hnz : ~ a * 36 == 0).
  { intros H. apply Ha. lra. }
  destruct (Z.eqb_spec n t) as [Heq|Hne].
  - exists (response_of request (cheated rng request) (true, (a * 36)%Q)).
    split.
    { rewrite Spin_stages, Hev. unfold house_advantage.
      now rewrite andb_false_r. }
    unfold response_of. rewrite Hch. simpl.
    split; [reflexivity|]. split; [reflexivity|]. split; [now right|].
    split; split; intros H; try assumption; try ring; try contradiction.
  - exists (response_of request (cheated rng request) (false, 0%Q)).
    split; [now rewrite Spin_stages, Hev|].
    unfold response_of. rewrite Hch. simpl.
    split; [reflexivity|]. split; [reflexivity|]. split; [now left|].
    split; split; intros H; try assumption; try reflexivity; try contradiction.
    exfalso. apply Ha. lra.
Qed.

(** ** Defaults of the request *)

(** C10. An empty bet type is resolved as red and an amount of 0 as 10: the
    spin of such a request is the spin of the request with the default
    written out, and there is a single red bet of amount 0 whose payout is
    20. *)
Theorem spin_defaults_red_and_ten :
  (forall request,
     req_bet_type request = ""%string -> resolve_bet_type request = "red"%string) /\
  (forall request,
     req_bet_amount request == 0 -> resolve_bet_amount request = 10%Q) /\
  (forall he rng request,
     req_bet_type request = ""%string ->
     Spin he rng request = Spin he rng (with_bet_type "red" request)) /\
  (forall he rng request,
     req_bet_amount request == 0 ->
     Spin he rng request = Spin he rng (with_bet_amount 10 request)) /\
  (exists rng request r,
     rng_ok rng /\
     req_bet_type request = "red"%string /\
     req_bet_amount request = 0%Q /\
     Spin false rng request = Ok r /\
     resp_win r = true /\
     resp_payout r = 20%Q).
Proof.
  split.
  { intros request H. unfold resolve_bet_type. now rewrite H. }
  split; [exact resolve_bet_amount_zero|].
  split.
  { intros he rng request H. unfold Spin, resolve_bet_type, resolve_bet_amount.
    simpl. now rewrite H. }
  split.
  { intros he rng request H. unfold Spin, resolve_bet_type.
    rewrite (resolve_bet_amount_zero request H).
    reflexivity. }
  exists {| rng_randint := 1; rng_cheat := 1 # 2; rng_choice := 0%nat;
            rng_house := 1 # 2 |}.
  exists {| req_bet_type := "red"; req_bet_amount := 0; req_bet_value := [];
            req_cheat_active := false; req_cheat_type := "" |}.
  eexists. split.
  { unfold rng_ok. simpl. repeat split; try lia; try (unfold Qle, Qlt; simpl; lia). }
  repeat split.
Qed.

(** ** Further properties of the handler *)

Lemma get_color_three_values (n : Z) :
  get_color n = "green"%string \/ get_color n = "red"%string \/
  get_color n = "black"%string.
Proof.
  unfold get_color. destruct (n =? 0); [now left|].
  destruct (py_in n RED_NUMBERS); auto.
Qed.

Lemma multiple_loop_win_stays (n : Z) (color : string)
    (bet_value : list (string * Bet)) (total : Q) (win : bool) (payout : Q) :
  multiple_loop n color bet_value (true, total) = Ok (win, payout) -> win = true.
Proof.
  revert total. induction bet_value as [|[key bet] rest IH]; intros total; simpl.
  - intros H. now injection H as <- _.
  - destruct (leg_amount bet) as [a|e]; [|discriminate].
    destruct (leg_win bet n color); [destruct (is_str (leg_type bet) "straight")|];
      apply IH.
Qed.

Lemma multiple_loop_loss (n : Z) (color : string)
    (bet_value : list (string * Bet)) (win : bool) (total payout : Q) :
  multiple_loop n color bet_value (win, total) = Ok (false, payout) ->
  win = false /\ payout = total.
Proof.
  revert win total. induction bet_value as [|[key bet] rest IH]; intros win total; simpl.
  - intros H. injection H as -> ->. now split.
  - destruct (leg_amount bet) as [a|e]; [|discriminate].
    destruct (leg_win bet n color).
    + destruct (is_str (leg_type bet) "straight"); intros H;
        apply multiple_loop_win_stays in H; discriminate.
    + apply IH.
Qed.

Lemma straight_loop_loss (bet_amount : Q) (n : Z)
    (bet_value : list (string * Bet)) (payout : Q) :
  straight_loop bet_amount n bet_value = Ok (false, payout) -> payout = 0%Q.
Proof.
  induction bet_value as [|[key bet] rest IH]; simpl.
  - intros H. now injection H as <-.
  - destruct (straight_bet_number key bet) as [t|[]]; try exact IH; try discriminate.
    destruct (n =? t); [discriminate | exact IH].
Qed.

Lemma evaluate_loss (bet_type : string) (bet_amount : Q)
    (bet_value : list (string * Bet)) (n : Z) (color : string) (payout : Q) :
  evaluate bet_type bet_amount bet_value n color = Ok (false, payout) ->
  payout = 0%Q.
Proof.
  unfold evaluate, even_money.
  destruct (String.eqb bet_type "multiple" && nonempty bet_value).
  { intros H. now apply multiple_loop_loss in H as [_ ->]. }
  repeat match goal with
         | |- (if String.eqb bet_type ?k then _ else _) = _ -> _ =>
             destruct (String.eqb bet_type k)
         end;
    try (intros H; injection H as Hw <-; now rewrite Hw);
    try (intros H; now injection H as <-).
  apply straight_loop_loss.
Qed.

(** X1. A response that reports a loss reports a payout of 0, in every
    mode and with or without cheat and house advantage. *)
Theorem loss_pays_nothing (he : bool) (rng : Rng) (request : SpinRequest)
    (r : SpinResponse) :
  Spin he rng request = Ok r -> resp_win r = false -> resp_payout r = 0%Q.
Proof.
  intros Hspin. apply Spin_response in Hspin as [win [payout [Hev ->]]].
  unfold response_of. cbn [resp_win resp_payout].
  unfold house_advantage.
  destruct (win && Qltb 0 payout && he).
  - destruct (Qltb (rng_house rng) (1 # 4)); [reflexivity|].
    simpl. intros ->. now apply evaluate_loss in Hev.
  - simpl. intros ->. now apply evaluate_loss in Hev.
Qed.

Lemma cheat_straight_on_wheel (bet_value : list (string * Bet)) (n : Z)
    (color : string) :
  0 <= n <= 36 -> 0 <= fst (cheat_straight bet_value n color) <= 36.
Proof.
  intros Hn. induction bet_value as [|[key bet] rest IH]; simpl; [exact Hn|].
  destruct (is_none (leg_value bet)); [exact IH|].
  destruct (py_int (leg_value bet)) as [t|e]; [|exact IH].
  destruct (on_wheel t) eqn:E; [|exact IH]. now apply on_wheel_iff.
Qed.

Lemma cheat_replace_on_wheel (k : nat) (bet_type : string)
    (bet_value : list (string * Bet)) (n : Z) (color : string) :
  0 <= n <= 36 -> 0 <= fst (cheat_replace k bet_type bet_value n color) <= 36.
Proof.
  intros Hn. unfold cheat_replace.
  destruct (String.eqb bet_type "multiple" && nonempty bet_value).
  { destruct (nonempty (potential_winning_numbers bet_value)) eqn:E; [|exact Hn].
    apply nonempty_true in E. simpl.
    apply (choice_In k) in E. now apply potential_winning_numbers_spec in E. }
  destruct (String.eqb bet_type "red" && negb (String.eqb color "red")).
  { simpl. now apply red_spec, choice_red. }
  destruct (String.eqb bet_type "black" && negb (String.eqb color "black")).
  { simpl. now apply black_spec, choice_black. }
  destruct (String.eqb bet_type "straight" && nonempty bet_value);
    [now apply cheat_straight_on_wheel | exact Hn].
Qed.

(** X2. When the ball lands on the wheel, the number of the response is on
    the wheel too, whatever the cheat block does, and the colour of the
    response is the colour of that number. *)
Theorem response_number_on_wheel (he : bool) (rng : Rng)
    (request : SpinRequest) (r : SpinResponse) :
  0 <= rng_randint rng <= 36 ->
  Spin he rng request = Ok r ->
  0 <= resp_winning_number r <= 36 /\
  resp_color r = get_color (resp_winning_number r) /\
  In (resp_color r) ["green"; "red"; "black"]%string.
Proof.
  intros Hn Hspin. apply Spin_response in Hspin as [win [payout [_ ->]]].
  unfold response_of. cbn [resp_winning_number resp_color].
  assert (Hw : 0 <= fst (fst (cheated rng request)) <= 36).
  { unfold cheated. rewrite apply_cheat_fires.
    destruct (cheat_fires rng _ _); simpl; [now apply cheat_replace_on_wheel | exact Hn]. }
  split; [exact Hw|]. split; [apply cheated_color|].
  rewrite cheated_color. simpl.
  destruct get_color_three_values
    with (n := fst (fst (cheated rng request))) as [H|[H|H]]; rewrite H; tauto.
Qed.

Lemma cheat_replace_other_type (k : nat) (bet_type : string)
    (bet_value : list (string * Bet)) (n : Z) (color : string) :
  ~ In bet_type ["multiple"; "red"; "black"; "straight"]%string ->
  cheat_replace k bet_type bet_value n color = (n, color).
Proof.
  intros H. simpl in H. unfold cheat_replace.
  destruct (String.eqb_spec bet_type "multiple"); [exfalso; auto|].
  destruct (String.eqb_spec bet_type "red"); [exfalso; auto|].
  destruct (String.eqb_spec bet_type "black"); [exfalso; auto|].
  destruct (String.eqb_spec bet_type "straight"); [exfalso; auto 6|].
  reflexivity.
Qed.

Lemma evaluate_unknown (bet_type : string) (bet_amount : Q)
    (bet_value : list (string * Bet)) (n : Z) (color : string) :
  ~ In bet_type known_bet_types ->
  evaluate bet_type bet_amount bet_value n color = Ok (false, 0%Q).
Proof.
  intros H. unfold known_bet_types in H. simpl in H. unfold evaluate.
  destruct (String.eqb_spec bet_type "multiple"); [exfalso; auto|].
  destruct (String.eqb_spec bet_type "red"); [exfalso; auto|].
  destruct (String.eqb_spec bet_type "black"); [exfalso; auto|].
  destruct (String.eqb_spec bet_type "even"); [exfalso; auto 6|].
  destruct (String.eqb_spec bet_type "odd"); [exfalso; auto 7|].
  destruct (String.eqb_spec bet_type "low"); [exfalso; auto 8|].
  destruct (String.eqb_spec bet_type "high"); [exfalso; auto 9|].
  destruct (String.eqb_spec bet_type "straight"); [exfalso; auto 10|].
  reflexivity.
Qed.

(** X3. A bet type without a branch of its own, and a multiple bet
    without legs, is a loss with payout 0 on the number as drawn: the handler
    rejects nothing, the cheat block replaces nothing, and only
    [cheat_boosted] still follows the cheat test. *)
Theorem unknown_bet_type_is_a_loss (he : bool) (rng : Rng)
    (request : SpinRequest) :
  (req_bet_type request <> ""%string /\
   ~ In (req_bet_type request) known_bet_types) \/
  (req_bet_type request = "multiple"%string /\ req_bet_value request = []) ->
  Spin he rng request =
  Ok {| resp_winning_number := rng_randint rng;
        resp_color := get_color (rng_randint rng);
        resp_win := false;
        resp_payout := 0;
        resp_cheat_active := req_cheat_active request;
        resp_cheat_type := req_cheat_type request;
        resp_cheat_boosted :=
          cheat_fires rng (req_cheat_active request) (req_cheat_type request) |}.
Proof.
  intros Hcase.
  assert (Hch : cheated rng request =
                (rng_randint rng, get_color (rng_randint rng),
                 cheat_fires rng (req_cheat_active request) (req_cheat_type request))).
  { unfold cheated. rewrite apply_cheat_fires.
    destruct (cheat_fires rng _ _); [|reflexivity]. f_equal.
    destruct Hcase as [[Hne Hunk] | [Hm He]].
    - apply cheat_replace_other_type. unfold resolve_bet_type.
      destruct (String.eqb_spec (req_bet_type request) ""); [contradiction|].
      unfold known_bet_types in Hunk. simpl in *. tauto.
    - unfold resolve_bet_type. rewrite Hm, He. reflexivity. }
  assert (Hev : evaluated rng request = Ok (false, 0%Q)).
  { unfold evaluated. destruct Hcase as [[Hne Hunk] | [Hm He]].
    - apply evaluate_unknown. unfold resolve_bet_type.
      destruct (String.eqb_spec (req_bet_type request) ""); [contradiction | exact Hunk].
    - unfold resolve_bet_type. rewrite Hm, He. reflexivity. }
  rewrite Spin_stages, Hev. unfold response_of. rewrite Hch. reflexivity.
Qed.

Lemma multiple_loop_ok_amounts (n : Z) (color : string)
    (bet_value : list (string * Bet)) (st st' : bool * Q) :
  multiple_loop n color bet_value st = Ok st' -> amounts_ok bet_value.
Proof.
  unfold amounts_ok. revert st.
  induction bet_value as [|[key bet] rest IH]; intros [win total]; simpl;
    [constructor|].
  destruct (leg_amount bet) as [a|e] eqn:Ea; [|discriminate].
  intros H. constructor; [now exists a|].
  destruct (leg_win bet n color); [destruct (is_str (leg_type bet) "straight")|];
    exact (IH _ H).
Qed.

(** X4. In multiple mode nothing catches a failing [float]: a leg whose
    amount does not convert makes the whole spin raise, wherever the leg
    stands in [bet_value] and whether or not other legs win. *)
Theorem multiple_mode_bad_amount_raises (he : bool) (rng : Rng)
    (request : SpinRequest) :
  resolve_bet_type request = "multiple"%string ->
  Exists (fun item => exists e, leg_amount (snd item) = Raise e)
         (req_bet_value request) ->
  exists e, Spin he rng request = Raise e.
Proof.
  intros Hbt Hbad.
  destruct (Spin he rng request) as [r|e] eqn:Hspin; [|now exists e].
  exfalso. apply Spin_response in Hspin as [win [payout [Hev _]]].
  unfold evaluated in Hev. rewrite Hbt in Hev. unfold evaluate in Hev.
  apply List.Exists_exists in Hbad as [item [Hin [e He]]].
  assert (Hne : nonempty (req_bet_value request) = true).
  { apply nonempty_true. intros E. rewrite E in Hin. exact Hin. }
  rewrite Hne, String.eqb_refl in Hev. cbn [andb] in Hev.
  apply multiple_loop_ok_amounts in Hev. unfold amounts_ok in Hev.
  rewrite List.Forall_forall in Hev. destruct (Hev item Hin) as [a Ha].
  congruence.
Qed.

(** *** The single straight bet with several entries *)

Lemma straight_loop_targets (bet_amount : Q) (n : Z)
    (bet_value : list (string * Bet)) :
  no_type_error bet_value ->
  straight_loop bet_amount n bet_value =
  Ok (if py_in n (straight_targets bet_value)
      then (true, (bet_amount * 36)%Q) else (false, 0%Q)).
Proof.
  unfold no_type_error.
  induction bet_value as [|[key bet] rest IH]; intros Hok; [reflexivity|].
  apply Forall_cons_iff in Hok as [Hhd Hok]. simpl in Hhd. simpl.
  destruct (straight_bet_number key bet) as [t|[]]; try (now apply IH);
    [|contradiction].
  unfold py_in. simpl. destruct (n =? t); [reflexivity|]. now apply IH.
Qed.

(** X5. A single straight bet wins iff the final number is among the
    numbers its entries convert to, entries that fail with [ValueError]
    being skipped; however many entries match, it pays 36 times the bet
    amount once. *)
Theorem single_straight_pays_once (he : bool) (rng : Rng)
    (request : SpinRequest) :
  resolve_bet_type request = "straight"%string ->
  no_type_error (req_bet_value request) ->
  let n := fst (fst (cheated rng request)) in
  let hit := py_in n (straight_targets (req_bet_value request)) in
  evaluated rng request =
    Ok (if hit then (true, (resolve_bet_amount request * 36)%Q) else (false, 0%Q)) /\
  (hit = true <-> In n (straight_targets (req_bet_value request))) /\
  exists r, Spin he rng request = Ok r /\ resp_winning_number r = n /\
            (he = false -> resp_win r = hit).
Proof.
  intros Hbt Hok n hit.
  assert (Hev : evaluated rng request =
    Ok (if hit then (true, (resolve_bet_amount request * 36)%Q) else (false, 0%Q))).
  { unfold evaluated. rewrite Hbt. unfold evaluate. simpl.
    now apply straight_loop_targets. }
  split; [exact Hev|]. split; [apply py_in_In|].
  rewrite Spin_stages, Hev. clearbody hit. clear Hev.
  destruct hit; (eexists; split; [reflexivity|]; split; [reflexivity|]);
    intros ->; unfold house_advantage; simpl;
    [now rewrite andb_false_r | reflexivity].
Qed.

Lemma straight_loop_type_error (bet_amount : Q) (n : Z)
    (before after : list (string * Bet)) (bet_key : string) (bet : Bet) :
  ~ In n (straight_targets before) ->
  no_type_error before ->
  straight_bet_number bet_key bet = Raise TypeError ->
  straight_loop bet_amount n (before ++ (bet_key, bet) :: after) = Raise TypeError.
Proof.
  unfold no_type_error. intros Hmiss Hok Herr.
  induction before as [|[key b] rest IH]; simpl.
  - now rewrite Herr.
  - apply Forall_cons_iff in Hok as [Hhd Hok]. simpl in Hhd, Hmiss.
    destruct (straight_bet_number key b) as [t|[]]; try (now apply IH);
      [|contradiction].
    simpl in Hmiss. destruct (Z.eqb_spec n t) as [->|Hne]; [tauto|].
    apply IH; [tauto | exact Hok].
Qed.

(** X6. The single straight bet catches [ValueError] and [AttributeError]
    only: an entry that is an object whose attribute [value] is [None]
    makes the handler raise [TypeError], unless an earlier entry has already
    matched the number. *)
Theorem single_straight_none_value_raises (he : bool) (rng : Rng)
    (request : SpinRequest) (before after : list (string * Bet))
    (bet_key : string) (attrs : gmap string pyval) :
  resolve_bet_type request = "straight"%string ->
  req_bet_value request = before ++ (bet_key, BetObj attrs) :: after ->
  attrs !! "value"%string = Some PyNone ->
  no_type_error before ->
  ~ In (fst (fst (cheated rng request))) (straight_targets before) ->
  Spin he rng request = Raise TypeError.
Proof.
  intros Hbt Hbv Hnone Hok Hmiss.
  rewrite Spin_stages. unfold evaluated. rewrite Hbt, Hbv. unfold evaluate. simpl.
  rewrite straight_loop_type_error; [reflexivity | exact Hmiss | exact Hok |].
  unfold straight_bet_number, hasattr, getattr. now rewrite Hnone.
Qed.

(** *** What a successful cheat test guarantees *)

(** X7. In multiple mode a successful cheat test with at least one
    candidate always ends in a winning evaluation: the number picked makes
    some leg win. *)
Theorem cheat_multiple_wins (he : bool) (rng : Rng) (request : SpinRequest) :
  resolve_bet_type request = "multiple"%string ->
  cheat_fires rng (req_cheat_active request) (req_cheat_type request) = true ->
  potential_winning_numbers (req_bet_value request) <> [] ->
  amounts_ok (req_bet_value request) ->
  exists r payout,
    Spin he rng request = Ok r /\
    evaluated rng request = Ok (true, payout) /\
    In (resp_winning_number r) (potential_winning_numbers (req_bet_value request)) /\
    resp_cheat_boosted r = true /\
    (he = false -> resp_win r = true).
Proof.
  intros Hbt Hfire Hpot Hok.
  set (bv := req_bet_value request) in *.
  set (picked := choice (rng_choice rng) (potential_winning_numbers bv)).
  assert (Hbv : nonempty bv = true).
  { destruct bv; [now contradiction Hpot | reflexivity]. }
  assert (Hch : cheated rng request = (picked, get_color picked, true)).
  { unfold cheated. rewrite apply_cheat_fires, Hfire, Hbt. fold bv.
    unfold cheat_replace. simpl. rewrite Hbv.
    apply nonempty_true in Hpot. now rewrite Hpot. }
  assert (Hin : In picked (potential_winning_numbers bv)).
  { apply choice_In. exact Hpot. }
  assert (Hany : any_leg_wins picked (get_color picked) bv = true).
  { apply potential_winning_numbers_spec in Hin as [_ [item [Hitem Hw]]].
    unfold any_leg_wins. apply existsb_exists. now exists item. }
  destruct (evaluate_multiple (resolve_bet_amount request) bv picked
              (get_color picked) Hok) as [payout [Hev _]].
  rewrite Hany in Hev.
  assert (Hev' : evaluated rng request = Ok (true, payout)).
  { unfold evaluated. rewrite Hch, Hbt. exact Hev. }
  eexists. exists payout. split; [rewrite Spin_stages, Hev'; reflexivity|].
  split; [exact Hev'|]. unfold response_of. rewrite Hch. simpl.
  split; [exact Hin|]. split; [reflexivity|].
  intros ->. unfold house_advantage. now rewrite andb_false_r.
Qed.

(** X8. With a successful cheat test a single red or black bet evaluates
    to a win at twice the amount on every draw: the number is replaced when
    its colour does not match and kept when it does. *)
Theorem cheat_color_bet_always_wins (he : bool) (rng : Rng)
    (request : SpinRequest) (bet_color : string) :
  In bet_color ["red"; "black"]%string ->
  resolve_bet_type request = bet_color ->
  cheat_fires rng (req_cheat_active request) (req_cheat_type request) = true ->
  evaluated rng request = Ok (true, (resolve_bet_amount request * 2)%Q) /\
  exists r,
    Spin he rng request = Ok r /\
    resp_color r = bet_color /\
    (get_color (rng_randint rng) = bet_color ->
     resp_winning_number r = rng_randint rng) /\
    (he = false ->
     resp_win r = true /\ resp_payout r = (resolve_bet_amount request * 2)%Q).
Proof.
  intros Hc Hbt Hfire. simpl in Hc.
  assert (Hch : snd (fst (cheated rng request)) = bet_color /\
                (get_color (rng_randint rng) = bet_color ->
                 fst (fst (cheated rng request)) = rng_randint rng)).
  { unfold cheated. rewrite apply_cheat_fires, Hfire, Hbt. unfold cheat_replace.
    destruct Hc as [<-|[<-|[]]]; simpl.
    - destruct (String.eqb_spec (get_color (rng_randint rng)) "red") as [E|E];
        simpl; split; auto; intros; contradiction.
    - destruct (String.eqb_spec (get_color (rng_randint rng)) "black") as [E|E];
        simpl; split; auto; intros; contradiction. }
  destruct Hch as [Hcol Hsame].
  assert (Hev : evaluated rng request =
                Ok (true, (resolve_bet_amount request * 2)%Q)).
  { unfold evaluated. rewrite Hcol, Hbt.
    destruct Hc as [<-|[<-|[]]]; reflexivity. }
  split; [exact Hev|].
  eexists. split; [rewrite Spin_stages, Hev; reflexivity|].
  unfold response_of. cbn [resp_color resp_winning_number resp_win resp_payout].
  split; [exact Hcol|]. split; [exact Hsame|].
  intros ->. unfold house_advantage. rewrite andb_false_r. now split.
Qed.

Lemma cheated_straight_first_target (rng : Rng) (request : SpinRequest)
    (bet_key : string) (bet : Bet) (rest : list (string * Bet)) (t : Z) :
  resolve_bet_type request = "straight"%string ->
  req_bet_value request = (bet_key, bet) :: rest ->
  cheat_fires rng (req_cheat_active request) (req_cheat_type request) = true ->
  cheat_target bet = Some t ->
  cheated rng request = (t, get_color t, true).
Proof.
  intros Hbt Hbv Hfire Ht. unfold cheated.
  rewrite apply_cheat_fires, Hfire, Hbt, Hbv. unfold cheat_replace. simpl.
  unfold cheat_target in Ht.
  destruct (is_none (leg_value bet)); [discriminate|].
  destruct (py_int (leg_value bet)) as [t'|e]; [|discriminate].
  destruct (on_wheel t'); [|discriminate]. now injection Ht as ->.
Qed.

Lemma object_leg_readers_agree (bet_key : string) (attrs : gmap string pyval)
    (t : Z) :
  is_Some (attrs !! "value"%string) ->
  cheat_target (BetObj attrs) = Some t ->
  straight_bet_number bet_key (BetObj attrs) = Ok t.
Proof.
  intros [v Hv]. unfold cheat_target, straight_bet_number, leg_value, hasattr, getattr.
  rewrite Hv. simpl.
  destruct (is_none v); [discriminate|].
  destruct (py_int v) as [t'|e]; [|discriminate].
  destruct (on_wheel t'); [|discriminate]. now intros [= ->].
Qed.

(** X9. With a successful cheat test, a single straight bet whose first
    entry is an object with an attribute [value] that converts to a number
    on the wheel gets that number and evaluates to a win at 36 times the
    amount: the cheat block and the evaluation read the same attribute. *)
Theorem cheat_straight_object_leg_wins (he : bool) (rng : Rng)
    (request : SpinRequest) (bet_key : string) (attrs : gmap string pyval)
    (rest : list (string * Bet)) (t : Z) :
  resolve_bet_type request = "straight"%string ->
  req_bet_value request = (bet_key, BetObj attrs) :: rest ->
  cheat_fires rng (req_cheat_active request) (req_cheat_type request) = true ->
  is_Some (attrs !! "value"%string) ->
  cheat_target (BetObj attrs) = Some t ->
  evaluated rng request = Ok (true, (resolve_bet_amount request * 36)%Q) /\
  exists r,
    Spin he rng request = Ok r /\
    resp_winning_number r = t /\ resp_color r = get_color t /\
    (he = false ->
     resp_win r = true /\ resp_payout r = (resolve_bet_amount request * 36)%Q).
Proof.
  intros Hbt Hbv Hfire Hval Ht.
  pose proof (cheated_straight_first_target rng request bet_key (BetObj attrs)
                rest t Hbt Hbv Hfire Ht) as Hch.
  pose proof (object_leg_readers_agree bet_key attrs t Hval Ht) as Hnum.
  assert (Hev : evaluated rng request =
                Ok (true, (resolve_bet_amount request * 36)%Q)).
  { unfold evaluated. rewrite Hch, Hbt, Hbv. unfold evaluate.
    cbn [String.eqb Ascii.eqb Bool.eqb andb nonempty fst snd straight_loop].
    rewrite Hnum, Z.eqb_refl. reflexivity. }
  split; [exact Hev|].
  eexists. split; [rewrite Spin_stages, Hev; reflexivity|].
  unfold response_of. rewrite Hch. simpl.
  split; [reflexivity|]. split; [reflexivity|].
  intros ->. unfold house_advantage. rewrite andb_false_r. now split.
Qed.

(** X10. The cheat block and the evaluation do not read a dict entry of a
    single straight bet in the same way: the cheat block takes the target
    from the entry's ['value'], the evaluation from the entry's key. With a
    successful cheat test and a key that does not convert to a number, the
    ball is put on the target and the bet still loses. *)
Theorem cheat_straight_dict_leg_loses (he : bool) (rng : Rng)
    (request : SpinRequest) (bet_key : string) (d : gmap string pyval) (t : Z) :
  resolve_bet_type request = "straight"%string ->
  req_bet_value request = [(bet_key, BetDict d)] ->
  cheat_fires rng (req_cheat_active request) (req_cheat_type request) = true ->
  cheat_target (BetDict d) = Some t ->
  int_of_str (replace_bet_ bet_key) = None ->
  Spin he rng request =
  Ok {| resp_winning_number := t;
        resp_color := get_color t;
        resp_win := false;
        resp_payout := 0;
        resp_cheat_active := req_cheat_active request;
        resp_cheat_type := req_cheat_type request;
        resp_cheat_boosted := true |}.
Proof.
  intros Hbt Hbv Hfire Ht Hkey.
  pose proof (cheated_straight_first_target rng request bet_key (BetDict d)
                [] t Hbt Hbv Hfire Ht) as Hch.
  assert (Hev : evaluated rng request = Ok (false, 0%Q)).
  { unfold evaluated. rewrite Hch, Hbt, Hbv. unfold evaluate.
    cbn [String.eqb Ascii.eqb Bool.eqb andb nonempty fst snd straight_loop
         straight_bet_number py_int].
    now rewrite Hkey. }
  rewrite Spin_stages, Hev. unfold response_of. rewrite Hch. reflexivity.
Qed.

(** *** The house advantage flag *)

(** X11. For the same request and the same draws, switching the house
    advantage on changes neither whether the handler returns nor the number,
    the colour or [cheat_boosted]; the response is either the same, or a win
    with a positive payout has become a loss with payout 0 on a draw below
    0.25. *)
Theorem house_flag_only_takes_wins (rng : Rng) (request : SpinRequest) :
  (forall e, Spin true rng request = Raise e <-> Spin false rng request = Raise e) /\
  (forall r_off,
     Spin false rng request = Ok r_off ->
     exists r_on,
       Spin true rng request = Ok r_on /\
       resp_winning_number r_on = resp_winning_number r_off /\
       resp_color r_on = resp_color r_off /\
       resp_cheat_boosted r_on = resp_cheat_boosted r_off /\
       (r_on = r_off \/
        (resp_win r_off = true /\ (0 < resp_payout r_off)%Q /\
         (rng_house rng < 1 # 4)%Q /\
         resp_win r_on = false /\ resp_payout r_on = 0%Q))).
Proof.
  split.
  - intros e. rewrite !Spin_stages.
    destruct (evaluated rng request) as [[win payout]|e']; split;
      intros H; try discriminate; exact H.
  - intros r_off. rewrite !Spin_stages.
    destruct (evaluated rng request) as [[win payout]|e']; [|discriminate].
    intros H. injection H as <-. eexists. split; [reflexivity|].
    unfold response_of. simpl.
    split; [reflexivity|]. split; [reflexivity|]. split; [reflexivity|].
    unfold house_advantage. rewrite !andb_false_r, !andb_true_r. simpl.
    destruct win; simpl; [|now left].
    destruct (Qltb 0 payout) eqn:Ep; simpl; [|now left].
    destruct (Qltb (rng_house rng) (1 # 4)) eqn:Er; [|now left].
    right. apply Qltb_lt in Ep, Er. auto.
Qed.

(** *** When the cheat block cannot act *)

Lemma get_cheat_boost_chance_range (cheat_type : string) :
  (0 <= get_cheat_boost_chance cheat_type)%Q /\
  (get_cheat_boost_chance cheat_type <= 2 # 5)%Q.
Proof.
  unfold get_cheat_boost_chance.
  repeat match goal with
         | |- context [String.eqb cheat_type ?k] => destruct (String.eqb cheat_type k)
         end; split; unfold Qle; simpl; lia.
Qed.

(** X12. No cheat type has a boost chance above 0.4: with a cheat draw of
    0.4 or more the cheat block never acts, whatever the request, and every
    boost chance is at least 0. *)
Theorem cheat_draw_from_0_4_never_boosts (rng : Rng) (bet_type : string)
    (bet_value : list (string * Bet)) (cheat_active : bool) (cheat_type : string)
    (n : Z) (color : string) :
  (2 # 5 <= rng_cheat rng)%Q ->
  (0 <= get_cheat_boost_chance cheat_type <= 2 # 5)%Q /\
  apply_cheat rng bet_type bet_value cheat_active cheat_type n color =
  (n, color, false).
Proof.
  intros Hr. split; [apply get_cheat_boost_chance_range|].
  rewrite apply_cheat_fires. unfold cheat_fires.
  assert (H : Qltb (rng_cheat rng) (get_cheat_boost_chance cheat_type) = false).
  { apply Qltb_ge. eapply Qle_trans; [apply get_cheat_boost_chance_range | exact Hr]. }
  rewrite H. now rewrite andb_false_r.
Qed.

Lemma cheat_straight_no_target (bet_value : list (string * Bet)) (n : Z)
    (color : string) :
  Forall (fun item => cheat_target (snd item) = None) bet_value ->
  cheat_straight bet_value n color = (n, color).
Proof.
  induction bet_value as [|[key bet] rest IH]; intros H; [reflexivity|].
  apply Forall_cons_iff in H as [Hhd H]. simpl in *. unfold cheat_target in Hhd.
  destruct (is_none (leg_value bet)); [now apply IH|].
  destruct (py_int (leg_value bet)) as [t|e]; [|now apply IH].
  destruct (on_wheel t); [discriminate | now apply IH].
Qed.

(** X13. A successful cheat test leaves the number and the colour as drawn
    for a single bet that is not red, black or straight, for a red or black
    bet whose colour has already come up, and for a straight bet none of
    whose entries carries a target on the wheel; [cheat_boosted] is true all
    the same. *)
Theorem cheat_leaves_the_draw (rng : Rng) (bet_type : string)
    (bet_value : list (string * Bet)) (cheat_active : bool) (cheat_type : string)
    (n : Z) :
  cheat_fires rng cheat_active cheat_type = true ->
  ~ In bet_type ["multiple"; "red"; "black"; "straight"]%string \/
  (In bet_type ["red"; "black"]%string /\ get_color n = bet_type) \/
  (bet_type = "straight"%string /\
   Forall (fun item => cheat_target (snd item) = None) bet_value) ->
  apply_cheat rng bet_type bet_value cheat_active cheat_type n (get_color n) =
  (n, get_color n, true).
Proof.
  intros Hfire Hcase. rewrite apply_cheat_fires, Hfire. f_equal.
  destruct Hcase as [Hother | [[Hc Hsame] | [-> Hnone]]].
  - now apply cheat_replace_other_type.
  - unfold cheat_replace. simpl in Hc.
    destruct Hc as [<-|[<-|[]]]; rewrite Hsame; reflexivity.
  - unfold cheat_replace. simpl.
    destruct (nonempty bet_value); [now apply cheat_straight_no_target | reflexivity].
Qed.

(** X14. [get_color] does not check its argument: every number outside
    0..36 is black. *)
Theorem get_color_off_wheel_is_black (n : Z) :
  n < 0 \/ 36 < n -> get_color n = "black"%string.
Proof.
  intros Hn. apply get_color_black. split; [lia|].
  intros Hin. apply red_spec in Hin. lia.
Qed.

(** *** The scoring record and the size of the payout *)

Lemma sum_leg_amounts_spec (bet_value : list (string * Bet)) :
  amounts_ok bet_value ->
  forall total,
  exists total',
    sum_leg_amounts bet_value total = Ok total' /\
    total' == total + sum_amounts bet_value.
Proof.
  unfold amounts_ok, sum_amounts.
  induction bet_value as [|[key bet] rest IH]; intros Hok total.
  - exists total. split; [reflexivity | simpl; ring].
  - apply Forall_cons_iff in Hok as [[a Ha] Hok]. simpl in Ha. simpl.
    rewrite Ha. destruct (IH Hok (total + a)%Q) as [total' [Hsum Heq]].
    exists total'. split; [exact Hsum|]. rewrite Heq.
    unfold amount_of. rewrite Ha. ring.
Qed.

Lemma straight_loop_values (bet_amount : Q) (n : Z)
    (bet_value : list (string * Bet)) (win : bool) (payout : Q) :
  straight_loop bet_amount n bet_value = Ok (win, payout) ->
  (win = false /\ payout = 0%Q) \/
  (win = true /\ payout = (bet_amount * 36)%Q).
Proof.
  induction bet_value as [|[key bet] rest IH]; simpl.
  - intros H. injection H as <- <-. now left.
  - destruct (straight_bet_number key bet) as [t|[]]; try exact IH; try discriminate.
    destruct (n =? t); [|exact IH]. intros H. injection H as <- <-. now right.
Qed.

Lemma even_money_values (bet_amount : Q) (test win : bool) (payout : Q) :
  Ok (even_money bet_amount test) = Ok (win, payout) ->
  (win = false /\ payout = 0%Q) \/
  (win = true /\ payout = (bet_amount * 2)%Q).
Proof.
  unfold even_money. intros H. injection H as <- <-.
  destruct test; [now right | now left].
Qed.

Lemma evaluate_single_values (bet_type : string) (bet_amount : Q)
    (bet_value : list (string * Bet)) (n : Z) (color : string)
    (win : bool) (payout : Q) :
  String.eqb bet_type "multiple" && nonempty bet_value = false ->
  evaluate bet_type bet_amount bet_value n color = Ok (win, payout) ->
  (win = false /\ payout = 0%Q) \/
  (win = true /\ payout = (bet_amount * 2)%Q /\
   In bet_type ["red"; "black"; "even"; "odd"; "low"; "high"]%string) \/
  (win = true /\ payout = (bet_amount * 36)%Q /\ bet_type = "straight"%string).
Proof.
  intros Hmode. unfold evaluate. rewrite Hmode.
  destruct (String.eqb_spec bet_type "red") as [->|_].
  { intros H. apply even_money_values in H as [H|[Hw Hp]];
      [now left | right; left; simpl; tauto]. }
  destruct (String.eqb_spec bet_type "black") as [->|_].
  { intros H. apply even_money_values in H as [H|[Hw Hp]];
      [now left | right; left; simpl; tauto]. }
  destruct (String.eqb_spec bet_type "even") as [->|_].
  { intros H. apply even_money_values in H as [H|[Hw Hp]];
      [now left | right; left; simpl; tauto]. }
  destruct (String.eqb_spec bet_type "odd") as [->|_].
  { intros H. apply even_money_values in H as [H|[Hw Hp]];
      [now left | right; left; simpl; tauto]. }
  destruct (String.eqb_spec bet_type "low") as [->|_].
  { intros H. apply even_money_values in H as [H|[Hw Hp]];
      [now left | right; left; simpl; tauto]. }
  destruct (String.eqb_spec bet_type "high") as [->|_].
  { intros H. apply even_money_values in H as [H|[Hw Hp]];
      [now left | right; left; simpl; tauto]. }
  destruct (String.eqb_spec bet_type "straight") as [->|_].
  { intros H. apply straight_loop_values in H as [H|[Hw Hp]];
      [now left | right; right; tauto]. }
  intros H. injection H as <- <-. now left.
Qed.

Lemma total_bet_amount_after_spin (he : bool) (rng : Rng)
    (request : SpinRequest) (r : SpinResponse) :
  Spin he rng request = Ok r ->
  exists total,
    total_bet_amount (resolve_bet_type request) (resolve_bet_amount request)
      (req_bet_value request) = Ok total /\
    (if String.eqb (resolve_bet_type request) "multiple" &&
        nonempty (req_bet_value request)
     then amounts_ok (req_bet_value request) /\
          total == sum_amounts (req_bet_value request)
     else total = resolve_bet_amount request).
Proof.
  intros Hspin. apply Spin_response in Hspin as [win [payout [Hev _]]].
  unfold total_bet_amount. unfold evaluated, evaluate in Hev.
  destruct (String.eqb (resolve_bet_type request) "multiple" &&
            nonempty (req_bet_value request)).
  - apply multiple_loop_ok_amounts in Hev.
    destruct (sum_leg_amounts_spec _ Hev 0%Q) as [total [Hsum Heq]].
    exists total. split; [exact Hsum|]. split; [exact Hev|]. rewrite Heq. ring.
  - eexists. split; reflexivity.
Qed.

(** X15. The block that builds the scoring record raises nothing of its
    own: whenever the evaluation has produced a response, the record is
    built too. It carries the payout of the response, the sum of the leg
    amounts in multiple mode and the bet amount otherwise, and it reports a
    win only for a winning response with a positive payout, so a winning
    response with payout 0 is recorded as "lose". *)
Theorem scoring_record_follows_response (he : bool) (rng : Rng)
    (request : SpinRequest) :
  (forall e, Spin he rng request = Raise e ->
             Spin_with_record he rng request = Raise e) /\
  (forall r,
     Spin he rng request = Ok r ->
     exists g,
       Spin_with_record he rng request = Ok (r, g) /\
       gr_payout g = resp_payout r /\
       gr_winning_number g = resp_winning_number r /\
       (gr_win g = true <-> resp_win r = true /\ (0 < resp_payout r)%Q) /\
       (gr_result g = "win"%string <-> gr_win g = true) /\
       (gr_result g = "lose"%string <-> gr_win g = false) /\
       (if String.eqb (resolve_bet_type request) "multiple" &&
           nonempty (req_bet_value request)
        then gr_betAmount g == sum_amounts (req_bet_value request)
        else gr_betAmount g = resolve_bet_amount request)).
Proof.
  split.
  - intros e H. unfold Spin_with_record. now rewrite H.
  - intros r Hspin.
    destruct (total_bet_amount_after_spin he rng request r Hspin)
      as [total [Htot Hval]].
    unfold Spin_with_record. rewrite Hspin, Htot.
    eexists. split; [reflexivity|]. cbn [gr_payout gr_winning_number gr_win
      gr_result gr_betAmount].
    split; [reflexivity|]. split; [reflexivity|].
    split; [now rewrite andb_true_iff, Qltb_lt|].
    split; [destruct (resp_win r && Qltb 0 (resp_payout r)); split;
            intros H; try reflexivity; discriminate|].
    split; [destruct (resp_win r && Qltb 0 (resp_payout r)); split;
            intros H; try reflexivity; discriminate|].
    destruct (String.eqb (resolve_bet_type request) "multiple" &&
              nonempty (req_bet_value request)); [apply Hval | exact Hval].
Qed.

(** X16. A single bet never pays anything but 0, twice the bet amount or
    36 times the bet amount as the handler resolved it: twice only on a win
    of a red, black, even, odd, low or high bet, 36 times only on a win of a
    straight bet, with or without cheat and house advantage. *)
Theorem single_bet_payout_values (he : bool) (rng : Rng)
    (request : SpinRequest) (r : SpinResponse) :
  String.eqb (resolve_bet_type request) "multiple" &&
    nonempty (req_bet_value request) = false ->
  Spin he rng request = Ok r ->
  resp_payout r = 0%Q \/
  (resp_win r = true /\
   resp_payout r = (resolve_bet_amount request * 2)%Q /\
   In (resolve_bet_type request)
      ["red"; "black"; "even"; "odd"; "low"; "high"]%string) \/
  (resp_win r = true /\
   resp_payout r = (resolve_bet_amount request * 36)%Q /\
   resolve_bet_type request = "straight"%string).
Proof.
  intros Hmode Hspin.
  apply Spin_response in Hspin as [win [payout [Hev ->]]].
  unfold response_of. cbn [resp_win resp_payout].
  unfold evaluated in Hev.
  apply (evaluate_single_values _ _ _ _ _ _ _ Hmode) in Hev.
  unfold house_advantage.
  destruct (win && Qltb 0 payout && he); [|simpl; tauto].
  destruct (Qltb (rng_house rng) (1 # 4)); [now left | simpl; tauto].
Qed.

(** X23. For every bet type other than multiple and straight the cheat
    block and the evaluation raise nothing: the handler returns a response
    whatever [bet_value] holds, since it does not read it. *)
Theorem simple_bet_always_returns (he : bool) (rng : Rng)
    (request : SpinRequest) :
  ~ In (resolve_bet_type request) ["multiple"; "straight"]%string ->
  (exists r, Spin he rng request = Ok r) /\
  (forall bet_value',
     Spin he rng (Build_SpinRequest (req_bet_type request)
                    (req_bet_amount request) bet_value'
                    (req_cheat_active request) (req_cheat_type request)) =
     Spin he rng request).
Proof.
  intros Hbt. simpl in Hbt.
  assert (Hm : String.eqb (resolve_bet_type request) "multiple" = false).
  { apply String.eqb_neq. intros E. apply Hbt. rewrite E. auto. }
  assert (Hs : String.eqb (resolve_bet_type request) "straight" = false).
  { apply String.eqb_neq. intros E. apply Hbt. rewrite E. auto. }
  split.
  - rewrite Spin_stages. unfold evaluated, evaluate. rewrite Hm, Hs. simpl.
    repeat match goal with
           | |- context [String.eqb (resolve_bet_type request) ?k] =>
               destruct (String.eqb (resolve_bet_type request) k)
           end; eexists; reflexivity.
  - intros bet_value'. unfold Spin, resolve_bet_amount.
    cbn [req_bet_value req_bet_amount req_cheat_active req_cheat_type].
    change (resolve_bet_type (Build_SpinRequest _ _ _ _ _))
      with (resolve_bet_type request).
    unfold apply_cheat, cheat_replace, evaluate. rewrite Hm, Hs. simpl.
    reflexivity.
Qed.

End Roulette.

(** ** The properties at concrete requests *)

Example black_numbers_value :
  black_numbers =
  [2; 4; 6; 8; 10; 11; 13; 15; 17; 20; 22; 24; 26; 28; 29; 31; 33; 35].
Proof. reflexivity. Qed.

Example even_numbers_value :
  even_numbers =
  [2; 4; 6; 8; 10; 12; 14; 16; 18; 20; 22; 24; 26; 28; 30; 32; 34; 36].
Proof. reflexivity. Qed.

Example odd_numbers_value :
  odd_numbers =
  [1; 3; 5; 7; 9; 11; 13; 15; 17; 19; 21; 23; 25; 27; 29; 31; 33; 35].
Proof. reflexivity. Qed.

Example low_high_numbers_value :
  low_numbers = [1; 2; 3; 4; 5; 6; 7; 8; 9; 10; 11; 12; 13; 14; 15; 16; 17; 18] /\
  high_numbers =
  [19; 20; 21; 22; 23; 24; 25; 26; 27; 28; 29; 30; 31; 32; 33; 34; 35; 36].
Proof. split; reflexivity. Qed.

Example replace_bet_17 : replace_bet_ "bet_17" = "17"%string.
Proof. reflexivity. Qed.

Example decimal_int_17 : decimal_int "17" = Some 17.
Proof. reflexivity. Qed.

(** The scenario of the two legs on a drawn 5: both win, 20 + 180. *)
Example scenario_red_and_straight_5 :
  evaluate decimal_int decimal_float "multiple" 10 scenario_legs 5 (get_color 5) =
  Ok (true, (0 + 10 * 2 + 5 * 36)%Q).
Proof. reflexivity. Qed.


(** C2 at target 17 and amount 5 with the ball on 17: the payout is 180. *)
Lemma single_straight_17_amount_5 :
  straight_bet_number decimal_int "bet_17" straight_17_leg = Ok 17 /\
  ~ 5 == 0 /\
  exists r,
    Spin decimal_int decimal_float false draws_17
      (straight_request 5 "bet_17" straight_17_leg "") = Ok r /\
    resp_win r = true /\
    resp_payout r == 180.
Proof.
  assert (Ht : straight_bet_number decimal_int "bet_17" straight_17_leg = Ok 17)
    by reflexivity.
  assert (Ha : ~ 5 == 0) by (intros H; discriminate H).
  split; [exact Ht|]. split; [exact Ha|].
  destruct (single_straight_payout decimal_int decimal_float draws_17 "bet_17"
              straight_17_leg 17 5 "" Ht Ha)
    as [r [Hspin [_ [Hwin [_ [Hiff _]]]]]].
  exists r. split; [exact Hspin|]. split; [exact Hwin|].
  rewrite (proj2 Hiff eq_refl). reflexivity.
Defined.

(** C3 at a win of 20 with the flag on and a draw of 0.1: the win is
    taken away. *)
Lemma house_advantage_takes_a_win :
  (0 < 20)%Q /\ (1 # 10 < 1 # 4)%Q /\
  house_advantage true (1 # 10) true 20 = (false, 0%Q).
Proof.
  assert (Hp : (0 < 20)%Q) by reflexivity.
  assert (Hr : (1 # 10 < 1 # 4)%Q) by reflexivity.
  split; [exact Hp|]. split; [exact Hr|].
  destruct (house_advantage_after_evaluation decimal_int decimal_float)
    as [_ [_ [_ [_ [Hlow _]]]]].
  exact (Hlow (1 # 10) 20%Q Hp Hr).
Defined.

(** C4 at the scenario legs with a successful cheat test: the candidates
    are 18 red numbers followed by the target 5 of the straight leg,
    position 3 holds 7, and 5 has weight 2. *)
Lemma cheat_multiple_scenario :
  cheat_fires draws_7_cheating true "ballControl" = true /\
  nonempty scenario_legs = true /\
  apply_cheat decimal_int draws_7_cheating "multiple" scenario_legs true
    "ballControl" 7 "red" = (7, "red"%string, true) /\
  choice_weight (potential_winning_numbers decimal_int scenario_legs) 5 = 2%nat /\
  In 5 (potential_winning_numbers decimal_int scenario_legs).
Proof.
  assert (Hf : cheat_fires draws_7_cheating true "ballControl" = true)
    by reflexivity.
  assert (Hl : nonempty scenario_legs = true) by reflexivity.
  split; [exact Hf|]. split; [exact Hl|].
  destruct (cheat_multiple_picks_a_candidate_position decimal_int
              draws_7_cheating scenario_legs true "ballControl" 7 "red" Hf Hl)
    as [_ [_ [_ [Hpick [Hweight [_ Hstraight]]]]]].
  split; [apply Hpick; discriminate|].
  split; [rewrite Hweight by lia; reflexivity|].
  refine (proj2 (Hstraight
            ("B"%string,
             BetDict {[ "type"%string := PyStr "straight";
                        "value"%string := PyInt 5;
                        "amount"%string := PyInt 5 ]})
            (PyInt 5) 5 _ eq_refl _ eq_refl _)).
  - simpl. right. left. reflexivity.
  - simpl. left. split; reflexivity.
  - lia.
Defined.

(** A black bet on the red 1 with a successful cheat test: the number
    becomes the black number at position 3, which is 8. *)
Lemma cheat_black_on_red_1 :
  cheat_fires draws_1_cheating true "wheelBias" = true /\
  get_color 1 <> "black"%string /\
  apply_cheat decimal_int draws_1_cheating "black" [] true "wheelBias" 1
    (get_color 1) = (8, "black"%string, true) /\
  exists r,
    Spin decimal_int decimal_float false draws_1_cheating black_bet_with_cheat =
      Ok r /\
    resp_win r = true /\ resp_payout r = (10 * 2)%Q.
Proof.
  assert (Hf : cheat_fires draws_1_cheating true "wheelBias" = true)
    by reflexivity.
  assert (Hc : get_color 1 <> "black"%string) by discriminate.
  split; [exact Hf|]. split; [exact Hc|].
  destruct (cheat_single_mode_replacement decimal_int decimal_float
              draws_1_cheating [] true "wheelBias" 1 Hf)
    as [_ [Hblack [_ [_ Hspin]]]].
  split.
  - apply Hblack. exact Hc.
  - destruct (Hspin false black_bet_with_cheat eq_refl eq_refl eq_refl eq_refl
                eq_refl eq_refl) as [_ [_ [_ [_ Hwin]]]].
    exact (Hwin eq_refl).
Defined.

(** C5 at a straight bet of 5 on 0 sent as a dict, the ball on 7 and a
    cheat draw of 0.1: the ball stays on 7 and the bet loses, where the
    target 0 was to replace the 7. *)
Lemma cheat_straight_dict_0_on_7 :
  cheat_fires draws_7_cheating true "ballControl" = true /\
  straight_0_fields !! "value"%string = Some (PyInt 0) /\
  straight_0_fields !! "Value"%string = None /\
  apply_cheat decimal_int draws_7_cheating "straight"
    [("bet_0"%string, BetDict straight_0_fields)] true "ballControl" 7
    (get_color 7) = (7, "red"%string, true) /\
  Spin decimal_int decimal_float false draws_7_cheating
    straight_dict_0_bet_with_cheat =
  Ok {| resp_winning_number := 7; resp_color := "red"; resp_win := false;
        resp_payout := 0; resp_cheat_active := true;
        resp_cheat_type := "ballControl"; resp_cheat_boosted := true |}.
Proof.
  assert (Hf : cheat_fires draws_7_cheating true "ballControl" = true)
    by reflexivity.
  assert (Hv : straight_0_fields !! "value"%string = Some (PyInt 0))
    by reflexivity.
  assert (HV : straight_0_fields !! "Value"%string = None) by reflexivity.
  split; [exact Hf|]. split; [exact Hv|]. split; [exact HV|].
  split.
  - exact (proj1 (cheat_straight_dict_target_0_is_dropped decimal_int
                    draws_7_cheating "bet_0" straight_0_fields true
                    "ballControl" 7 Hf Hv HV)).
  - reflexivity.
Defined.

(** C6 at the even bet with a successful cheat test: the response reports
    [cheat_boosted]. *)
Lemma cheat_boosted_even_bet :
  exists r,
    Spin decimal_int decimal_float false draws_7_cheating even_bet_with_cheat =
      Ok r /\
    resp_cheat_boosted r = true.
Proof.
  assert (H : exists r,
             Spin decimal_int decimal_float false draws_7_cheating
               even_bet_with_cheat = Ok r)
    by (eexists; reflexivity).
  destruct H as [r Hr]. exists r. split; [exact Hr|].
  destruct (cheat_boosted_is_the_cheat_test decimal_int decimal_float)
    as [_ [_ [Hresp _]]].
  rewrite (Hresp false draws_7_cheating even_bet_with_cheat r Hr). reflexivity.
Defined.

(** C7 at 17, a black number. *)
Lemma get_color_17 :
  0 <= 17 <= 36 /\ In 17 black_numbers /\ get_color 17 = "black"%string.
Proof.
  assert (Hn : 0 <= 17 <= 36) by lia.
  assert (Hin : In 17 black_numbers) by (vm_compute; tauto).
  split; [exact Hn|]. split; [exact Hin|].
  destruct get_color_partitions_wheel as [_ [Hcol _]].
  destruct (Hcol 17 Hn) as [_ [_ Hblack]]. apply Hblack. exact Hin.
Defined.

(** C8 at an even bet and a drawn 0. *)
Lemma even_bet_loses_on_zero :
  In "even"%string outside_kinds /\
  evaluate decimal_int decimal_float "even" 10 [] 0 "green" = Ok (false, 0%Q).
Proof.
  assert (Hk : In "even"%string outside_kinds) by (simpl; tauto).
  split; [exact Hk|].
  destruct (outside_bets_exclude_zero decimal_int decimal_float "even" Hk)
    as [_ [_ [Hzero _]]].
  apply Hzero.
Defined.

(** C9 at a cheat type that is not in the table, with the smallest
    possible draw. *)
Lemma unknown_cheat_type_never_fires :
  (0 <= 0)%Q /\ ~ In "loadedDice"%string known_cheat_types /\
  apply_cheat decimal_int
    {| rng_randint := 7; rng_cheat := 0; rng_choice := 0%nat; rng_house := 0 |}
    "black" [] true "loadedDice" 7 "red" = (7, "red"%string, false).
Proof.
  assert (Hr : (0 <= 0)%Q) by (apply Qle_refl).
  assert (Hk : ~ In "loadedDice"%string known_cheat_types).
  { simpl. intros [H|[H|[H|[H|[]]]]]; discriminate H. }
  split; [exact Hr|]. split; [exact Hk|].
  destruct (cheat_inactive_or_unknown_kind decimal_int decimal_float) as [_ [_ [Hunk _]]].
  apply Hunk; [exact Hr | exact Hk].
Defined.

(** C10 at the request without bet type and amount, the ball on the red
    1. *)
Lemma bare_request_is_red_10 :
  req_bet_type bare_request = ""%string /\
  req_bet_amount bare_request == 0 /\
  Spin decimal_int decimal_float false draws_1_cheating bare_request =
  Spin decimal_int decimal_float false draws_1_cheating
    (with_bet_amount 10 (with_bet_type "red" bare_request)).
Proof.
  split; [reflexivity|]. split; [reflexivity|].
  destruct (spin_defaults_red_and_ten decimal_int decimal_float)
    as [_ [_ [Htype [Hamount _]]]].
  rewrite (Htype false draws_1_cheating bare_request eq_refl).
  apply Hamount. reflexivity.
Defined.

(** ** Where the code differs from the description *)

(** C2 as stated fails at amount 0: the handler replaces the amount by 10,
    so a straight bet on 17 with amount 0 is paid 360 when the ball lands on
    17, which is neither 0 nor 36 times 0. *)
Lemma single_straight_amount_0_pays_360 :
  exists r,
    Spin decimal_int decimal_float false draws_17
      (straight_request 0 "bet_17" straight_17_leg "") = Ok r /\
    rng_randint draws_17 = 17 /\
    resp_payout r == 360 /\
    ~ (resp_payout r == 0 \/ resp_payout r == 36 * 0).
Proof.
  eexists. split; [reflexivity|]. simpl.
  split; [reflexivity|]. split; [reflexivity|].
  intros [H|H]; discriminate H.
Defined.

(** C4 as stated fails for a red leg and an odd leg: the candidates hold
    the number 1 twice and the number 12 once, so [random.choice] is not
    uniform on the union. *)
Lemma cheat_multiple_choice_not_uniform :
  let potential := potential_winning_numbers decimal_int red_and_odd_legs in
  length potential = 36%nat /\
  In 1 potential /\ In 12 potential /\
  choice_weight potential 1 = 2%nat /\
  choice_weight potential 12 = 1%nat /\
  ~ uniform_choice potential.
Proof.
  assert (H1 : In 1 (potential_winning_numbers decimal_int red_and_odd_legs))
    by (vm_compute; tauto).
  assert (H12 : In 12 (potential_winning_numbers decimal_int red_and_odd_legs))
    by (vm_compute; tauto).
  cbv zeta.
  split; [reflexivity|]. split; [exact H1|]. split; [exact H12|].
  split; [reflexivity|]. split; [reflexivity|].
  intros Hu. specialize (Hu 1 12 H1 H12). vm_compute in Hu. discriminate Hu.
Qed.

(** C6 as stated fails for a single even bet: the cheat block leaves the
    drawn 7 in place, and the response still reports [cheat_boosted]. *)
Lemma cheat_boosted_without_replacement :
  exists r,
    Spin decimal_int decimal_float false draws_7_cheating even_bet_with_cheat =
      Ok r /\
    cheat_replace decimal_int (rng_choice draws_7_cheating) "even" []
      (rng_randint draws_7_cheating) (get_color (rng_randint draws_7_cheating)) =
      (rng_randint draws_7_cheating, get_color (rng_randint draws_7_cheating)) /\
    resp_winning_number r = rng_randint draws_7_cheating /\
    resp_cheat_boosted r = true.
Proof.
  eexists. split; [reflexivity|]. repeat split.
Qed.

(** ** The Redis helper *)

Lemma game_key_inj (u u' : string) :
  RedisHelper.game_key u = RedisHelper.game_key u' -> u = u'.
Proof.
  unfold RedisHelper.game_key, RedisHelper.GAME_STATE_KEY_PREFIX. simpl.
  intros H. now injection H.
Qed.

(** X17. A state saved for a user is the state read back for that user,
    with the time to live of one hour, and the states of all other users
    read as before: the key prefix keeps users apart. The stored text must
    not be empty, which [get_game_state] reads as no state. *)
Theorem save_then_get_game_state (GameState : Type)
    (json_dumps : GameState -> option string)
    (json_loads : string -> option GameState)
    (db : gmap string (Z * string)) (username : string)
    (game_state : GameState) (state_json : string) :
  json_dumps game_state = Some state_json ->
  state_json <> ""%string ->
  json_loads state_json = Some game_state ->
  exists db',
    RedisHelper.save_game_state GameState json_dumps (Some db) true username
      game_state = (true, Some db') /\
    db' !! RedisHelper.game_key username = Some (3600, state_json) /\
    RedisHelper.get_game_state GameState json_loads (Some db') true username =
      Some game_state /\
    (forall other,
       other <> username ->
       RedisHelper.get_game_state GameState json_loads (Some db') true other =
       RedisHelper.get_game_state GameState json_loads (Some db) true other).
Proof.
  intros Hd Hne Hl. unfold RedisHelper.save_game_state. rewrite Hd.
  eexists. split; [reflexivity|].
  split; [apply lookup_insert_eq|].
  unfold RedisHelper.get_game_state. split.
  - rewrite lookup_insert_eq.
    destruct (String.eqb_spec state_json ""); [contradiction | exact Hl].
  - intros other Ho. rewrite lookup_insert_ne; [reflexivity|].
    intros Hk. apply game_key_inj in Hk. congruence.
Qed.

(** X18. Deleting the state of a user succeeds whether or not a state is
    stored; afterwards no state is read for that user, and the states of
    all other users read as before. *)
Theorem delete_then_get_game_state (GameState : Type)
    (json_loads : string -> option GameState)
    (db : gmap string (Z * string)) (username : string) :
  exists db',
    RedisHelper.delete_game_state (Some db) true username = (true, Some db') /\
    RedisHelper.get_game_state GameState json_loads (Some db') true username = None /\
    (forall other,
       other <> username ->
       RedisHelper.get_game_state GameState json_loads (Some db') true other =
       RedisHelper.get_game_state GameState json_loads (Some db) true other).
Proof.
  unfold RedisHelper.delete_game_state. eexists. split; [reflexivity|].
  unfold RedisHelper.get_game_state. split.
  - now rewrite lookup_delete_eq.
  - intros other Ho. rewrite lookup_delete_ne; [reflexivity|].
    intros Hk. apply game_key_inj in Hk. congruence.
Qed.

(** X19. Without a client, with a server that cannot be reached, or with
    a state that [json.dumps] rejects, nothing is stored or removed and the
    helpers answer [False] or [None] instead of raising. *)
Theorem game_state_store_unavailable (GameState : Type)
    (json_dumps : GameState -> option string)
    (json_loads : string -> option GameState)
    (redis_client : option (gmap string (Z * string))) (reachable : bool)
    (username : string) (game_state : GameState) :
  redis_client = None \/ reachable = false \/ json_dumps game_state = None ->
  RedisHelper.save_game_state GameState json_dumps redis_client reachable
    username game_state = (false, redis_client) /\
  (redis_client = None \/ reachable = false ->
   RedisHelper.get_game_state GameState json_loads redis_client reachable
     username = None /\
   RedisHelper.delete_game_state redis_client reachable username =
     (false, redis_client)).
Proof.
  intros Hcase. split.
  - unfold RedisHelper.save_game_state.
    destruct redis_client as [db|]; [|reflexivity].
    destruct (json_dumps game_state) as [s|]; [|reflexivity].
    destruct Hcase as [H | [-> | H]]; try discriminate. reflexivity.
  - intros [-> | ->]; [split; reflexivity|].
    unfold RedisHelper.get_game_state, RedisHelper.delete_game_state.
    destruct redis_client; split; reflexivity.
Qed.

(** ** The feature flags *)

Lemma char_case_round (c : ascii) :
  FeatureFlags.char_upper (FeatureFlags.char_lower c) = FeatureFlags.char_upper c /\
  FeatureFlags.char_lower (FeatureFlags.char_upper c) = FeatureFlags.char_lower c.
Proof.
  destruct c as [[] [] [] [] [] [] [] []]; split; reflexivity.
Qed.

Lemma upper_lower (s : string) :
  FeatureFlags.upper (FeatureFlags.lower s) = FeatureFlags.upper s.
Proof.
  unfold FeatureFlags.upper, FeatureFlags.lower.
  induction s as [|c s IH]; simpl; [reflexivity|].
  now rewrite IH, (proj1 (char_case_round c)).
Qed.

Lemma lower_upper (s : string) :
  FeatureFlags.lower (FeatureFlags.upper s) = FeatureFlags.lower s.
Proof.
  unfold FeatureFlags.upper, FeatureFlags.lower.
  induction s as [|c s IH]; simpl; [reflexivity|].
  now rewrite IH, (proj2 (char_case_round c)).
Qed.

Lemma replace_dots_lower (s : string) :
  FeatureFlags.replace_dots (FeatureFlags.lower s) =
  FeatureFlags.lower (FeatureFlags.replace_dots s).
Proof.
  unfold FeatureFlags.replace_dots, FeatureFlags.lower.
  induction s as [|c s IH]; simpl; [reflexivity|]. rewrite IH. f_equal.
  destruct c as [[] [] [] [] [] [] [] []]; reflexivity.
Qed.

Lemma replace_dots_twice (s : string) :
  FeatureFlags.replace_dots (FeatureFlags.replace_dots s) =
  FeatureFlags.replace_dots s.
Proof.
  unfold FeatureFlags.replace_dots.
  induction s as [|c s IH]; simpl; [reflexivity|]. rewrite IH. f_equal.
  destruct c as [[] [] [] [] [] [] [] []]; reflexivity.
Qed.

(** X20. The helper and the fallback the service defines when the helper
    is missing return the same value whenever the environment variable of
    the flag is set, and also when it is not set and flagd cannot be
    reached: the default. *)
Theorem feature_flag_fallback_agrees
    (json_loads : string -> option FeatureFlags.jval)
    (env : gmap string string) (flagd : FeatureFlags.flagd_reply)
    (flag_key : string) (default_value : bool) :
  is_Some (env !! FeatureFlags.env_key flag_key) \/
  flagd = FeatureFlags.Unreachable ->
  FeatureFlags.get_feature_flag json_loads env flagd flag_key default_value =
    Ok (FeatureFlags.JBool
          (FeatureFlags.get_feature_flag_fallback env flag_key default_value)) /\
  (env !! FeatureFlags.env_key flag_key = None ->
   FeatureFlags.get_feature_flag_fallback env flag_key default_value =
     default_value).
Proof.
  intros Hcase.
  assert (Hdef : env !! FeatureFlags.env_key flag_key = None ->
                 FeatureFlags.get_feature_flag_fallback env flag_key default_value =
                 default_value).
  { intros Hnone. unfold FeatureFlags.get_feature_flag_fallback. rewrite Hnone.
    destruct default_value; reflexivity. }
  split; [|exact Hdef].
  unfold FeatureFlags.get_feature_flag.
  destruct (env !! FeatureFlags.env_key flag_key) as [v|] eqn:E.
  - unfold FeatureFlags.get_feature_flag_fallback. now rewrite E.
  - destruct Hcase as [[v Hv] | ->]; [discriminate|].
    now rewrite (Hdef eq_refl).
Qed.

(** X21. When the environment variable of the flag is not set and flagd
    answers with a JSON object whose state is [ENABLED] and whose
    [defaultVariant] is neither a string nor a boolean, the helper raises the
    [AttributeError] of [variant.lower()]: neither [except] clause catches
    it, so it reaches the caller. *)
Theorem feature_flag_non_string_variant_raises
    (json_loads : string -> option FeatureFlags.jval)
    (env : gmap string string) (data : gmap string FeatureFlags.jval)
    (flag_key : string) (default_value : bool) :
  env !! FeatureFlags.env_key flag_key = None ->
  data !! "state"%string = Some (FeatureFlags.JStr "ENABLED") ->
  data !! "defaultVariant"%string = Some FeatureFlags.JOther ->
  FeatureFlags.get_feature_flag json_loads env (FeatureFlags.Reply data)
    flag_key default_value = Raise AttributeError.
Proof.
  intros Henv Hstate Hvariant. unfold FeatureFlags.get_feature_flag.
  rewrite Henv, Hstate, Hvariant. reflexivity.
Qed.

(** X22. The environment variable of a flag does not depend on the case
    of the letters of the key nor on whether the key writes a dot or an
    underscore; once the variable is set, the result depends neither on
    flagd nor on the default, and the value is read without regard to
    case. *)
Theorem feature_flag_env_ignores_case (flag_key : string) :
  FeatureFlags.env_key (FeatureFlags.lower flag_key) =
    FeatureFlags.env_key flag_key /\
  FeatureFlags.env_key (FeatureFlags.replace_dots flag_key) =
    FeatureFlags.env_key flag_key /\
  (forall json_loads (env env' : gmap string string) flagd flagd'
          default_value default_value' (v : string),
     env !! FeatureFlags.env_key flag_key = Some v ->
     env' !! FeatureFlags.env_key flag_key = Some (FeatureFlags.upper v) ->
     FeatureFlags.get_feature_flag json_loads env flagd flag_key default_value =
     FeatureFlags.get_feature_flag json_loads env' flagd' flag_key default_value').
Proof.
  unfold FeatureFlags.env_key. split; [|split].
  - now rewrite replace_dots_lower, upper_lower.
  - now rewrite replace_dots_twice.
  - intros json_loads env env' flagd flagd' default_value default_value' v Hv Hv'.
    unfold FeatureFlags.get_feature_flag, FeatureFlags.env_key. rewrite Hv, Hv'.
    now rewrite lower_upper.
Qed.

(** ** The further properties at concrete requests *)

(** X1 at the even bet on a drawn 7. *)
Lemma even_bet_on_7_pays_nothing :
  exists r,
    Spin decimal_int decimal_float false draws_7_cheating even_bet_with_cheat =
      Ok r /\
    resp_win r = false /\ resp_payout r = 0%Q.
Proof.
  assert (H : exists r,
             Spin decimal_int decimal_float false draws_7_cheating
               even_bet_with_cheat = Ok r /\ resp_win r = false)
    by (eexists; split; reflexivity).
  destruct H as [r [Hr Hw]]. exists r. split; [exact Hr|]. split; [exact Hw|].
  exact (loss_pays_nothing decimal_int decimal_float false draws_7_cheating
           even_bet_with_cheat r Hr Hw).
Defined.

(** X2 at the black bet with a successful cheat test on a drawn 1. *)
Lemma cheated_black_bet_number_on_wheel :
  0 <= rng_randint draws_1_cheating <= 36 /\
  exists r,
    Spin decimal_int decimal_float true draws_1_cheating black_bet_with_cheat =
      Ok r /\
    0 <= resp_winning_number r <= 36 /\
    resp_color r = get_color (resp_winning_number r).
Proof.
  assert (Hn : 0 <= rng_randint draws_1_cheating <= 36) by (simpl; lia).
  split; [exact Hn|].
  assert (H : exists r,
             Spin decimal_int decimal_float true draws_1_cheating
               black_bet_with_cheat = Ok r)
    by (eexists; reflexivity).
  destruct H as [r Hr]. exists r. split; [exact Hr|].
  destruct (response_number_on_wheel decimal_int decimal_float true
              draws_1_cheating black_bet_with_cheat r Hn Hr) as [H1 [H2 _]].
  split; [exact H1 | exact H2].
Defined.

(** X3 at a split bet. *)
Lemma split_bet_is_a_loss :
  ~ In (req_bet_type split_bet) known_bet_types /\
  exists r,
    Spin decimal_int decimal_float false draws_17 split_bet = Ok r /\
    resp_winning_number r = 17 /\ resp_win r = false /\ resp_payout r = 0%Q.
Proof.
  assert (Hk : ~ In (req_bet_type split_bet) known_bet_types).
  { simpl. intros H. repeat (destruct H as [H|H]; [discriminate H|]). exact H. }
  split; [exact Hk|].
  eexists. split.
  - apply (unknown_bet_type_is_a_loss decimal_int decimal_float false draws_17
             split_bet).
    left. split; [discriminate | exact Hk].
  - repeat split.
Defined.

(** X4 at the scenario legs followed by a leg whose amount is the text
    [ten], the ball on 5: both scenario legs win and the spin raises. *)
Lemma text_amount_makes_the_spin_raise :
  Exists (fun item => exists e, leg_amount decimal_float (snd item) = Raise e)
         (req_bet_value multiple_bet_with_text_amount) /\
  Spin decimal_int decimal_float false draws_5 multiple_bet_with_text_amount =
    Raise ValueError.
Proof.
  assert (Hbad : Exists
            (fun item => exists e, leg_amount decimal_float (snd item) = Raise e)
            (req_bet_value multiple_bet_with_text_amount)).
  { simpl. apply Exists_cons_tl, Exists_cons_tl, Exists_cons_hd.
    exists ValueError. reflexivity. }
  split; [exact Hbad|].
  destruct (multiple_mode_bad_amount_raises decimal_int decimal_float false
              draws_5 multiple_bet_with_text_amount eq_refl Hbad) as [e He].
  rewrite He. clear Hbad. vm_compute in He. exact (eq_sym He).
Defined.

(** X5 at the straight bet on 17 with the ball on 17. *)
Lemma straight_17_hit_pays_once :
  no_type_error decimal_int
    (req_bet_value (straight_request 5 "bet_17" straight_17_leg "")) /\
  evaluated decimal_int decimal_float draws_17
    (straight_request 5 "bet_17" straight_17_leg "") = Ok (true, (5 * 36)%Q).
Proof.
  assert (Hok : no_type_error decimal_int
                  (req_bet_value (straight_request 5 "bet_17" straight_17_leg ""))).
  { unfold no_type_error. simpl. constructor; [discriminate | constructor]. }
  split; [exact Hok|].
  destruct (single_straight_pays_once decimal_int decimal_float false draws_17
              (straight_request 5 "bet_17" straight_17_leg "") eq_refl Hok)
    as [Hev _].
  exact Hev.
Defined.

(** X6 at the straight bet whose entry has the value [None]. *)
Lemma straight_bet_without_value_raises :
  Spin decimal_int decimal_float false draws_17 straight_bet_without_value =
  Raise TypeError.
Proof.
  apply (single_straight_none_value_raises decimal_int decimal_float false
           draws_17 straight_bet_without_value [] [] "bet_17"
           {[ "value"%string := PyNone ]}).
  - reflexivity.
  - reflexivity.
  - reflexivity.
  - constructor.
  - simpl. tauto.
Defined.

(** X7 at the scenario legs with a successful cheat test. *)
Lemma cheated_scenario_wins :
  cheat_fires draws_7_cheating true "ballControl" = true /\
  exists r,
    Spin decimal_int decimal_float false draws_7_cheating
      multiple_bet_with_cheat = Ok r /\
    resp_win r = true.
Proof.
  assert (Hf : cheat_fires draws_7_cheating true "ballControl" = true)
    by reflexivity.
  split; [exact Hf|].
  assert (Hok : amounts_ok decimal_float (req_bet_value multiple_bet_with_cheat)).
  { unfold amounts_ok. simpl.
    repeat (constructor; [eexists; reflexivity|]). constructor. }
  assert (Hpot : potential_winning_numbers decimal_int
                   (req_bet_value multiple_bet_with_cheat) <> [])
    by discriminate.
  destruct (cheat_multiple_wins decimal_int decimal_float false draws_7_cheating
              multiple_bet_with_cheat eq_refl Hf Hpot Hok)
    as [r [payout [Hspin [_ [_ [_ Hwin]]]]]].
  exists r. split; [exact Hspin | exact (Hwin eq_refl)].
Defined.

(** X8 at the black bet on a drawn red 1. *)
Lemma cheated_black_bet_wins :
  In "black"%string ["red"; "black"]%string /\
  cheat_fires draws_1_cheating (req_cheat_active black_bet_with_cheat)
    (req_cheat_type black_bet_with_cheat) = true /\
  evaluated decimal_int decimal_float draws_1_cheating black_bet_with_cheat =
    Ok (true, (10 * 2)%Q).
Proof.
  assert (Hc : In "black"%string ["red"; "black"]%string) by (simpl; tauto).
  assert (Hf : cheat_fires draws_1_cheating (req_cheat_active black_bet_with_cheat)
                 (req_cheat_type black_bet_with_cheat) = true) by reflexivity.
  split; [exact Hc|]. split; [exact Hf|].
  destruct (cheat_color_bet_always_wins decimal_int decimal_float false
              draws_1_cheating black_bet_with_cheat "black" Hc eq_refl Hf)
    as [Hev _].
  exact Hev.
Defined.

(** X9 at the straight bet on 17 as an object, the ball on 7. *)
Lemma cheated_straight_object_bet_wins :
  cheat_target decimal_int straight_17_leg = Some 17 /\
  exists r,
    Spin decimal_int decimal_float false draws_7_cheating
      straight_bet_with_cheat = Ok r /\
    resp_winning_number r = 17 /\ resp_win r = true.
Proof.
  assert (Ht : cheat_target decimal_int straight_17_leg = Some 17) by reflexivity.
  split; [exact Ht|].
  assert (Hv : is_Some (({[ "value"%string := PyInt 17 ]} : gmap string pyval)
                          !! "value"%string))
    by (eexists; reflexivity).
  destruct (cheat_straight_object_leg_wins decimal_int decimal_float false
              draws_7_cheating straight_bet_with_cheat "bet_17"
              {[ "value"%string := PyInt 17 ]} [] 17 eq_refl eq_refl eq_refl Hv Ht)
    as [_ [r [Hspin [Hn [_ Hwin]]]]].
  exists r. split; [exact Hspin|]. split; [exact Hn|].
  exact (proj1 (Hwin eq_refl)).
Defined.

(** X10 at the straight bet on 17 as a dict under the key [lucky], the
    ball on 7. *)
Lemma cheated_straight_dict_bet_loses :
  decimal_int (replace_bet_ "lucky") = None /\
  exists r,
    Spin decimal_int decimal_float false draws_7_cheating
      straight_dict_bet_with_cheat = Ok r /\
    resp_winning_number r = 17 /\ resp_win r = false /\
    resp_cheat_boosted r = true.
Proof.
  assert (Hk : decimal_int (replace_bet_ "lucky") = None) by reflexivity.
  split; [exact Hk|].
  eexists. split.
  - apply (cheat_straight_dict_leg_loses decimal_int decimal_float false
             draws_7_cheating straight_dict_bet_with_cheat "lucky"
             {[ "value"%string := PyInt 17 ]} 17);
      [reflexivity | reflexivity | reflexivity | reflexivity | exact Hk].
  - repeat split.
Defined.

(** X11 at the bare request, the ball on the red 1 and a house draw of
    0.5: the flag changes nothing. *)
Lemma house_flag_on_a_surviving_win :
  exists r_off r_on,
    Spin decimal_int decimal_float false draws_1_cheating bare_request = Ok r_off /\
    Spin decimal_int decimal_float true draws_1_cheating bare_request = Ok r_on /\
    resp_winning_number r_on = resp_winning_number r_off.
Proof.
  assert (H : exists r,
             Spin decimal_int decimal_float false draws_1_cheating bare_request =
             Ok r) by (eexists; reflexivity).
  destruct H as [r_off Hoff].
  destruct (house_flag_only_takes_wins decimal_int decimal_float
              draws_1_cheating bare_request) as [_ Hon].
  destruct (Hon r_off Hoff) as [r_on [Hspin [Hn _]]].
  exists r_off, r_on. split; [exact Hoff|]. split; [exact Hspin | exact Hn].
Defined.

(** X12 at a cheat draw of 0.5 with the strongest cheat type. *)
Lemma cheat_draw_of_half_never_boosts :
  (2 # 5 <= rng_cheat draws_17)%Q /\
  apply_cheat decimal_int draws_17 "black" [] true "magneticField" 1 "red" =
  (1, "red"%string, false).
Proof.
  assert (Hr : (2 # 5 <= rng_cheat draws_17)%Q) by (unfold Qle; simpl; lia).
  split; [exact Hr|].
  exact (proj2 (cheat_draw_from_0_4_never_boosts decimal_int draws_17 "black" []
                  true "magneticField" 1 "red" Hr)).
Defined.

(** X13 at an even bet on a drawn 7. *)
Lemma cheat_leaves_an_even_bet :
  cheat_fires draws_7_cheating true "ballControl" = true /\
  apply_cheat decimal_int draws_7_cheating "even" [] true "ballControl" 7
    (get_color 7) = (7, get_color 7, true).
Proof.
  assert (Hf : cheat_fires draws_7_cheating true "ballControl" = true)
    by reflexivity.
  split; [exact Hf|].
  apply (cheat_leaves_the_draw decimal_int draws_7_cheating "even" [] true
           "ballControl" 7 Hf).
  left. simpl. intros H. repeat (destruct H as [H|H]; [discriminate H|]). exact H.
Defined.

(** X14 at 37. *)
Lemma get_color_37 : (37 < 0 \/ 36 < 37) /\ get_color 37 = "black"%string.
Proof.
  assert (H : 37 < 0 \/ 36 < 37) by lia.
  split; [exact H | exact (get_color_off_wheel_is_black 37 H)].
Defined.

(** X15 at the scenario legs with the ball on 5: both legs win, and the
    record carries a win and a stake of 15. *)
Lemma scenario_scoring_record :
  exists r g,
    Spin decimal_int decimal_float false draws_5 multiple_bet_with_cheat = Ok r /\
    Spin_with_record decimal_int decimal_float false draws_5
      multiple_bet_with_cheat = Ok (r, g) /\
    gr_win g = true /\ gr_betAmount g == 15.
Proof.
  assert (H : exists r,
             Spin decimal_int decimal_float false draws_5
               multiple_bet_with_cheat = Ok r /\
             resp_win r = true /\ (0 < resp_payout r)%Q)
    by (eexists; split; [reflexivity | split; reflexivity]).
  destruct H as [r [Hr [Hw Hp]]].
  destruct (scoring_record_follows_response decimal_int decimal_float false
              draws_5 multiple_bet_with_cheat) as [_ Hrec].
  destruct (Hrec r Hr) as [g [Hg [_ [_ [Hwin [_ [_ Hbet]]]]]]].
  exists r, g. split; [exact Hr|]. split; [exact Hg|].
  split; [apply Hwin; split; assumption|].
  simpl in Hbet. rewrite Hbet. reflexivity.
Defined.

(** X16 at the straight bet of 5 on 17 with the ball on 17: the payout is
    36 times 5. *)
Lemma straight_17_hit_pays_36_times_5 :
  exists r,
    Spin decimal_int decimal_float false draws_17
      (straight_request 5 "bet_17" straight_17_leg "") = Ok r /\
    resp_payout r <> 0%Q /\
    resp_payout r = (5 * 36)%Q.
Proof.
  assert (H : exists r,
             Spin decimal_int decimal_float false draws_17
               (straight_request 5 "bet_17" straight_17_leg "") = Ok r /\
             resp_payout r <> 0%Q /\
             (resp_payout r = (5 * 2)%Q -> False))
    by (eexists; split; [reflexivity | split; discriminate]).
  destruct H as [r [Hr [Hnz Hn2]]]. exists r. split; [exact Hr|].
  split; [exact Hnz|].
  destruct (single_bet_payout_values decimal_int decimal_float false draws_17
              (straight_request 5 "bet_17" straight_17_leg "") r eq_refl Hr)
    as [H0 | [[_ [H2 _]] | [_ [H36 _]]]].
  - contradiction.
  - contradiction (Hn2 H2).
  - exact H36.
Defined.

(** X17 with states that are JSON text already: alice's state is read
    back and bob's is still there. *)
Lemma save_alice_keeps_bob :
  exists db',
    RedisHelper.save_game_state string Some (Some store_with_bob) true "alice"
      "[3]"%string = (true, Some db') /\
    RedisHelper.get_game_state string Some (Some db') true "alice" =
      Some "[3]"%string /\
    RedisHelper.get_game_state string Some (Some db') true "bob" =
      Some "[1, 2]"%string.
Proof.
  destruct (save_then_get_game_state string Some Some store_with_bob "alice"
              "[3]" "[3]" eq_refl ltac:(discriminate) eq_refl)
    as [db' [Hsave [_ [Hget Hother]]]].
  exists db'. split; [exact Hsave|]. split; [exact Hget|].
  rewrite (Hother "bob"%string ltac:(discriminate)). reflexivity.
Defined.

(** X18 at bob's state. *)
Lemma delete_bob :
  exists db',
    RedisHelper.delete_game_state (Some store_with_bob) true "bob" =
      (true, Some db') /\
    RedisHelper.get_game_state string Some (Some db') true "bob" = None.
Proof.
  destruct (delete_then_get_game_state string Some store_with_bob "bob")
    as [db' [Hdel [Hget _]]].
  exists db'. split; [exact Hdel | exact Hget].
Defined.

(** X19 without a client. *)
Lemma no_client_no_state :
  RedisHelper.save_game_state string Some None true "bob" "[3]"%string =
    (false, None) /\
  RedisHelper.get_game_state string Some None true "bob" = None.
Proof.
  destruct (game_state_store_unavailable string Some Some None true "bob" "[3]"
              (or_introl eq_refl)) as [Hsave Hrest].
  split; [exact Hsave|]. exact (proj1 (Hrest (or_introl eq_refl))).
Defined.

(** X20 for the flag of the service with the variable set to [Yes]. *)
Lemma house_advantage_flag_from_env :
  FeatureFlags.env_key "casino.house-advantage" =
    "FLAG_CASINO_HOUSE-ADVANTAGE"%string /\
  FeatureFlags.get_feature_flag (fun _ => None)
    {[ "FLAG_CASINO_HOUSE-ADVANTAGE"%string := "Yes"%string ]}
    flagd_numeric_variant "casino.house-advantage" false =
  Ok (FeatureFlags.JBool true).
Proof.
  split; [reflexivity|].
  assert (Hset : is_Some
            (({[ "FLAG_CASINO_HOUSE-ADVANTAGE"%string := "Yes"%string ]}
               : gmap string string)
             !! FeatureFlags.env_key "casino.house-advantage"))
    by (eexists; reflexivity).
  rewrite (proj1 (feature_flag_fallback_agrees (fun _ => None) _
                    flagd_numeric_variant "casino.house-advantage" false
                    (or_introl Hset))).
  reflexivity.
Defined.

(** X21 for the flag of the service with no variable set and a numeric
    variant. *)
Lemma house_advantage_flag_raises :
  (∅ : gmap string string) !! FeatureFlags.env_key "casino.house-advantage" = None /\
  FeatureFlags.get_feature_flag (fun _ => None) ∅ flagd_numeric_variant
    "casino.house-advantage" false = Raise AttributeError.
Proof.
  split; [reflexivity|].
  apply (feature_flag_non_string_variant_raises (fun _ => None) ∅ _
           "casino.house-advantage" false); reflexivity.
Defined.

(** X22 for the flag of the service: [yes] and [YES] are read alike. *)
Lemma house_advantage_flag_yes_and_YES :
  FeatureFlags.get_feature_flag (fun _ => None)
    {[ "FLAG_CASINO_HOUSE-ADVANTAGE"%string := "yes"%string ]}
    FeatureFlags.Unreachable "casino.house-advantage" false =
  FeatureFlags.get_feature_flag (fun _ => None)
    {[ "FLAG_CASINO_HOUSE-ADVANTAGE"%string := "YES"%string ]}
    flagd_numeric_variant "casino.house-advantage" true.
Proof.
  destruct (feature_flag_env_ignores_case "casino.house-advantage")
    as [_ [_ Hcase]].
  apply (Hcase (fun _ => None) _ _ _ _ false true "yes"%string);
    reflexivity.
Defined.

(** X23 at the even bet with the scenario legs put in. *)
Lemma even_bet_ignores_bet_value :
  ~ In (resolve_bet_type even_bet_with_cheat) ["multiple"; "straight"]%string /\
  Spin decimal_int decimal_float false draws_7_cheating
    (Build_SpinRequest "even" 10 scenario_legs true "ballControl") =
  Spin decimal_int decimal_float false draws_7_cheating even_bet_with_cheat.
Proof.
  assert (Hbt : ~ In (resolve_bet_type even_bet_with_cheat)
                     ["multiple"; "straight"]%string).
  { simpl. intros H. repeat (destruct H as [H|H]; [discriminate H|]). exact H. }
  split; [exact Hbt|].
  destruct (simple_bet_always_returns decimal_int decimal_float false
              draws_7_cheating even_bet_with_cheat Hbt) as [_ Hsame].
  exact (Hsame scenario_legs).
Defined.
